(** * CHM core: output timing, wall-clock detection and checkpoint policy

    A shallow embedding of the three policy classes nested in [class core]
    (src/core.hpp): [output_info], [hpc_scheduler_info] and [chkptOp], and
    the properties of their methods [should_output], [detect] and
    [should_checkpoint].

    Conventions of the embedding:
    - [size_t] is a 64-bit unsigned integer, modelled as a [Z] in
      [0, 2^64) with the wrap-around of subtraction written out;
      [a % b] with [b = 0] is undefined in C++ and is modelled as the
      fault [DivideByZero], which stops the evaluation and leaves the
      object as it was at that point.
    - [boost::optional<T>] is [option T].
    - [boost::posix_time::ptime] and [time_duration] are tick counts
      (microseconds), as in boost's counted time representation.
    - Methods run in a small monad threading the object ([*this]), a
      result that is a value or a fault, and the trace of collective
      operations performed. *)

From Stdlib Require Import ZArith Lia List Ascii String PrimFloat.
From Stdlib Require DecimalString.
From stdpp Require Import base option list strings gmap.

Local Open Scope Z_scope.

(** ** Machine integers *)

Module Machine.

Definition size_t_modulus : Z := 2 ^ 64.

(** [SIZE_MAX] of <cstdint>. *)
Definition SIZE_MAX : Z := size_t_modulus - 1.

(** The values a [size_t] can hold. *)
Definition is_size_t (n : Z) : Prop := 0 <= n < size_t_modulus.

(** Unsigned subtraction [a - b]: wraps around modulo 2^64. *)
Definition size_sub (a b : Z) : Z := (a - b) mod size_t_modulus.

(** Unsigned remainder [a % b]: no value when the divisor is zero. *)
Definition size_rem (a b : Z) : option Z :=
  if b =? 0 then None else Some (a mod b).

(** Conversion [bool -> int]. *)
Definition int_of_bool (b : bool) : Z := if b then 1 else 0.

(** Contextual conversion [int -> bool]: nonzero is true. *)
Definition bool_of_int (n : Z) : bool := negb (n =? 0).

(** "[b] is a multiple of [a]" can be decided by computation. *)
#[global] Instance Z_divide_dec : RelDecision Z.divide.
Proof.
  intros a b.
  destruct ((b =? 0) || negb (a =? 0) && (b mod a =? 0)) eqn:E;
    [left | right]; destruct (Z.BoolSpec_divide a b); congruence.
Defined.

End Machine.

(** ** boost::posix_time *)

Module posix_time.

(** A [time_duration] is a signed count of ticks. *)
Definition time_duration : Type := Z.

(** A [ptime] is a count of ticks since the start of the calendar. *)
Definition ptime : Type := Z.

Definition ticks_per_second : Z := 1000000.
Definition ticks_per_minute : Z := 60 * ticks_per_second.
Definition ticks_per_hour : Z := 60 * ticks_per_minute.
Definition ticks_per_day : Z := 24 * ticks_per_hour.

Definition seconds (n : Z) : time_duration := n * ticks_per_second.
Definition minutes (n : Z) : time_duration := n * ticks_per_minute.

(** [ptime::time_of_day()]. *)
Definition time_of_day (t : ptime) : time_duration := t mod ticks_per_day.

(** [time_duration::hours()]. *)
Definition td_hours (d : time_duration) : Z := d / ticks_per_hour.

(** [time_duration::minutes()]: the normalised minute field. *)
Definition td_minutes (d : time_duration) : Z := (d / ticks_per_minute) mod 60.

End posix_time.

(** ** Method execution: object state, faults and collective calls *)

Module Exec.

(** Exceptions that can propagate out of a method. *)
Inductive exn : Type :=
| chm_error (msg : string)
| library_exception.

Inductive fault : Type :=
| DivideByZero
| Thrown (e : exn).

Inductive result (A : Type) : Type :=
| Ok (a : A)
| Raise (f : fault).
Arguments Ok {A} a.
Arguments Raise {A} f.

(** What a method does that other processes can observe. *)
Inductive event : Type :=
| AllReduceMaximum (in_value : Z).

(** A method of a class whose objects have type [S]. *)
Definition Run (S A : Type) : Type := S -> result A * S * list event.

Definition run_result {S A} (m : Run S A) (s : S) : result A := (m s).1.1.
Definition run_state {S A} (m : Run S A) (s : S) : S := (m s).1.2.
Definition run_trace {S A} (m : Run S A) (s : S) : list event := (m s).2.

Definition ret {S A} (a : A) : Run S A := fun s => (Ok a, s, []).

Definition bind {S A B} (f : A -> Run S B) (m : Run S A) : Run S B :=
  fun s =>
    match m s with
    | (Ok a, s1, tr1) =>
        match f a s1 with
        | (r, s2, tr2) => (r, s2, tr1 ++ tr2)
        end
    | (Raise e, s1, tr1) => (Raise e, s1, tr1)
    end.

#[global] Instance Run_ret {S} : MRet (Run S) := @ret S.
#[global] Instance Run_bind {S} : MBind (Run S) := @bind S.

(** Read the object. *)
Definition this {S} : Run S S := fun s => (Ok s, s, []).

(** Assign to the object. *)
Definition assign {S} (f : S -> S) : Run S unit := fun s => (Ok tt, f s, []).

Definition raise {S A} (f : fault) : Run S A := fun s => (Raise f, s, []).

Definition throw {S A} (e : exn) : Run S A := raise (Thrown e).

(** A value of an operation that is undefined on some operands. *)
Definition defined {S A} (o : option A) : Run S A :=
  match o with
  | Some a => ret a
  | None => raise DivideByZero
  end.

(** A library call that returns a value or throws. *)
Definition library_call {S A} (o : option A) : Run S A :=
  match o with
  | Some a => ret a
  | None => throw library_exception
  end.

(** [try { body } catch (...) { handler }]: every exception is caught;
    a division fault is not an exception. *)
Definition try_catch_all {S A} (body handler : Run S A) : Run S A :=
  fun s =>
    match body s with
    | (Raise (Thrown _), s1, tr1) =>
        match handler s1 with
        | (r, s2, tr2) => (r, s2, tr1 ++ tr2)
        end
    | other => other
    end.

(** Record a collective call. *)
Definition emit {S} (e : event) : Run S unit := fun s => (Ok tt, s, [e]).

End Exec.

Import Machine posix_time Exec.

(** ** boost::mpi *)

Module mpi.

(** A communicator, seen from one rank: the values the other ranks
    contribute to the collective in progress. *)
Definition communicator : Type := list Z.

(** [boost::mpi::maximum<int>]. *)
Definition maximum (a b : Z) : Z := Z.max a b.

(** [all_reduce(comm, in_value, out_value, op)]: combines the value of
    this rank with those of all others. *)
Definition all_reduce (comm : communicator) (in_value : Z)
    (op : Z -> Z -> Z) : Z :=
  fold_right op in_value comm.

End mpi.

(** ** class core::output_info *)

Module output_info.

Inductive output_type : Type := time_series | mesh.
Inductive mesh_outputs : Type := vtp | vtu | ascii.

(** The data members, in declaration order. [type] has no initialiser
    and is [None] until configured; [face] is a handle, [None] for
    [nullptr]; the [timeseries ts] member belongs to a collaborator and
    is not read or written by any method below. *)
Record t : Type := mk {
  type : option output_type;
  name : string;
  mesh_output_formats : list mesh_outputs;
  fname : string;
  latitude : float;
  longitude : float;
  x : float;
  y : float;
  variables : gset string;
  face : option Z;
  frequency : option Z;
  specific_datetime : option ptime;
  specific_time : option ptime;
  only_last_n : option Z
}.

(** [output_info()]. *)
Definition output_info : t :=
  {| type := None;
     name := "";
     mesh_output_formats := [];
     fname := "";
     latitude := 0%float;
     longitude := 0%float;
     x := 0%float;
     y := 0%float;
     variables := ∅;
     face := None;
     frequency := None;
     specific_datetime := None;
     specific_time := None;
     only_last_n := Some SIZE_MAX |}.

(** [bool should_output(max_ts, current_ts, _current_date)]. *)
Definition should_output (max_ts current_ts : Z) (_current_date : ptime)
    : Run t bool :=
  self ← this;
  let should_output := false in
  should_output ←
    match only_last_n self with
    | Some n =>
        let ts_left := size_sub max_ts current_ts in
        mret (if ts_left <=? n then true else should_output)
    | None => mret should_output
    end;
  should_output ←
    match frequency self with
    | Some f =>
        r ← defined (size_rem current_ts f);
        mret (if r =? 0 then true else should_output)
    | None => mret should_output
    end;
  should_output ←
    match specific_time self with
    | Some st =>
        mret (if (td_hours (time_of_day _current_date)
                    =? td_hours (time_of_day st))
                 && (td_minutes (time_of_day _current_date)
                       =? td_minutes (time_of_day st))
              then true else should_output)
    | None => mret should_output
    end;
  should_output ←
    match specific_datetime self with
    | Some dt => mret (if _current_date =? dt then true else should_output)
    | None => mret should_output
    end;
  mret should_output.

End output_info.

(** ** class core::hpc_scheduler_info *)

Module hpc_scheduler_info.

Record t : Type := mk {
  max_wallclock : time_duration;
  wallclock_start : ptime;
  has_wallclock_limit : bool
}.

(** [hpc_scheduler_info()]. [wallclock_start] is default-constructed;
    its value is only meaningful once a limit has been detected. *)
Definition hpc_scheduler_info : t :=
  {| max_wallclock := seconds 0;
     wallclock_start := 0;
     has_wallclock_limit := false |}.

(** [wallclock_remaining()], with the reading of
    [second_clock::local_time()] passed as [now]. *)
Definition wallclock_remaining (self : t) (now : ptime) : time_duration :=
  max_wallclock self - (now - wallclock_start self).

Definition set_max_wallclock (d : time_duration) (self : t) : t :=
  {| max_wallclock := d;
     wallclock_start := wallclock_start self;
     has_wallclock_limit := has_wallclock_limit self |}.

Definition set_has_wallclock_limit (b : bool) (self : t) : t :=
  {| max_wallclock := max_wallclock self;
     wallclock_start := wallclock_start self;
     has_wallclock_limit := b |}.

Definition set_wallclock_start (p : ptime) (self : t) : t :=
  {| max_wallclock := max_wallclock self;
     wallclock_start := p;
     has_wallclock_limit := has_wallclock_limit self |}.

Definition invalid_wallclock_message : string :=
  "The value given for environment variable CHM_WALLCLOCK is invalid".

Section Detect.

(** [boost::posix_time::duration_from_string]: the parsed duration, or
    [None] where the library throws. *)
Variable duration_from_string : string -> option time_duration.

(** The process environment read by [std::getenv]. *)
Variable environ : gmap string string.

(** The reading of [second_clock::local_time()]. *)
Variable now : ptime.

Definition getenv (var : string) : option string := environ !! var.

(** [void detect()]. The scheduler variables only feed debug logging. *)
Definition detect : Run t unit :=
  let SLURM_JOB_ID := getenv "SLURM_JOB_ID" in
  match SLURM_JOB_ID with
  | Some _ =>
      let SLURM_TASK_PID := getenv "SLURM_TASK_PID" in
      let SLURM_PROCID := getenv "SLURM_PROCID" in
      mret tt
  | None => mret tt
  end;;
  let PBS_JOB_ID := getenv "PBS_JOBID" in
  match PBS_JOB_ID with
  | Some _ => mret tt
  | None => mret tt
  end;;
  let CHM_WALLCLOCK := getenv "CHM_WALLCLOCK_LIMIT" in
  match CHM_WALLCLOCK with
  | Some text =>
      try_catch_all
        (d ← library_call (duration_from_string text);
         assign (set_max_wallclock d);;
         assign (set_has_wallclock_limit true);;
         assign (set_wallclock_start now))
        (throw (chm_error invalid_wallclock_message))
  | None => mret tt
  end.

End Detect.

End hpc_scheduler_info.

(** ** class core::chkptOp *)

Module chkptOp.

(** The data members; [netcdf in_savestate] is a collaborator's file
    handle that no method below touches. *)
Record t : Type := mk {
  ckpt_path : string;
  do_checkpoint : bool;
  load_from_checkpoint : bool;
  abort_when_wallclock_left : time_duration;
  on_outta_time : option bool;
  on_last : option bool;
  frequency : option Z;
  checkpoint_request_terminate : bool
}.

(** [chkptOp()]. *)
Definition chkptOp : t :=
  {| ckpt_path := "";
     do_checkpoint := false;
     load_from_checkpoint := false;
     abort_when_wallclock_left := minutes 2;
     on_outta_time := None;
     on_last := Some false;
     frequency := None;
     checkpoint_request_terminate := false |}.

Definition set_checkpoint_request_terminate (b : bool) (self : t) : t :=
  {| ckpt_path := ckpt_path self;
     do_checkpoint := do_checkpoint self;
     load_from_checkpoint := load_from_checkpoint self;
     abort_when_wallclock_left := abort_when_wallclock_left self;
     on_outta_time := on_outta_time self;
     on_last := on_last self;
     frequency := frequency self;
     checkpoint_request_terminate := b |}.

(** [opt && *opt] for a [boost::optional<bool>]. *)
Definition engaged_and_true (opt : option bool) : bool :=
  match opt with
  | Some b => b
  | None => false
  end.

(** [bool should_checkpoint(current_ts, is_last_ts, scheduler_info,
    comm_world)], with the clock reading [now] made explicit. Each
    [return] ends the evaluation; [&&] evaluates left to right and stops
    at the first false operand. *)
Definition should_checkpoint (current_ts : Z) (is_last_ts : bool)
    (scheduler_info : hpc_scheduler_info.t) (now : ptime)
    (comm_world : mpi.communicator) : Run t bool :=
  self ← this;
  if negb (do_checkpoint self) then mret false
  else if engaged_and_true (on_last self) && is_last_ts then mret true
  else
    every_n ←
      match frequency self with
      | Some f =>
          if negb (current_ts =? 0)
          then r ← defined (size_rem current_ts f); mret (r =? 0)
          else mret false
      | None => mret false
      end;
    if (every_n : bool) then mret true
    else if engaged_and_true (on_outta_time self)
            && hpc_scheduler_info.has_wallclock_limit scheduler_info
    then
      let outoftime :=
        int_of_bool
          (hpc_scheduler_info.wallclock_remaining scheduler_info now
             <=? abort_when_wallclock_left self) in
      emit (AllReduceMaximum outoftime);;
      let global_outoftime :=
        mpi.all_reduce comm_world outoftime mpi.maximum in
      if bool_of_int global_outoftime
      then assign (set_checkpoint_request_terminate true);; mret true
      else mret false
    else mret false.

(** One evaluation in the timestep loop: the arguments of a call. *)
Record call : Type := mk_call {
  current_ts : Z;
  is_last_ts : bool;
  scheduler_info : hpc_scheduler_info.t;
  now : ptime;
  comm_world : mpi.communicator
}.

Definition evaluate (c : call) : Run t bool :=
  should_checkpoint (current_ts c) (is_last_ts c) (scheduler_info c)
    (now c) (comm_world c).

(** Successive evaluations on the same object, one per timestep. *)
Fixpoint evaluations (cs : list call) : Run t (list bool) :=
  match cs with
  | [] => mret []
  | c :: rest =>
      b ← evaluate c;
      bs ← evaluations rest;
      mret (b :: bs)
  end.

End chkptOp.

(** ** The policies as the design document words them *)

Module Design.

(** *** Output triggers *)

Section OutputTriggers.

Variable d : output_info.t.
Variables max_ts current_ts : Z.
Variable current_date : ptime.

(** "Only within the last N timesteps": [max_ts - current_ts <= n],
    the difference taken in [size_t]. *)
Definition only_last_n_matches : Prop :=
  exists n, output_info.only_last_n d = Some n
            /\ size_sub max_ts current_ts <= n.

(** "Every N timesteps": the timestep is a multiple of N. *)
Definition frequency_matches : Prop :=
  exists f, output_info.frequency d = Some f /\ (f | current_ts).

(** "At a specific time-of-day": same hour and minute. *)
Definition specific_time_matches : Prop :=
  exists st, output_info.specific_time d = Some st
    /\ td_hours (time_of_day current_date) = td_hours (time_of_day st)
    /\ td_minutes (time_of_day current_date) = td_minutes (time_of_day st).

(** "At a specific absolute timestamp". *)
Definition specific_datetime_matches : Prop :=
  output_info.specific_datetime d = Some current_date.

(** The triggers are OR-combined. *)
Definition some_trigger_matches : Prop :=
  only_last_n_matches \/ frequency_matches
  \/ specific_time_matches \/ specific_datetime_matches.

End OutputTriggers.

(** Two descriptors with the same four trigger fields. *)
Definition same_triggers (d1 d2 : output_info.t) : Prop :=
  output_info.only_last_n d1 = output_info.only_last_n d2
  /\ output_info.frequency d1 = output_info.frequency d2
  /\ output_info.specific_time d1 = output_info.specific_time d2
  /\ output_info.specific_datetime d1 = output_info.specific_datetime d2.

(** A descriptor with no trigger but "only the last n". *)
Definition only_last (n : Z) (d : output_info.t) : Prop :=
  output_info.only_last_n d = Some n
  /\ output_info.frequency d = None
  /\ output_info.specific_time d = None
  /\ output_info.specific_datetime d = None.

(** A descriptor with no trigger but "every f timesteps". *)
Definition only_every (f : Z) (d : output_info.t) : Prop :=
  output_info.only_last_n d = None
  /\ output_info.frequency d = Some f
  /\ output_info.specific_time d = None
  /\ output_info.specific_datetime d = None.

(** A descriptor with no trigger configured. *)
Definition no_trigger (d : output_info.t) : Prop :=
  output_info.only_last_n d = None
  /\ output_info.frequency d = None
  /\ output_info.specific_time d = None
  /\ output_info.specific_datetime d = None.

(** *** Checkpoint decision *)

(** The consensus the design asks for: the logical OR of the local
    out-of-time results of all processes. *)
Definition logical_or (locals : list bool) : bool := existsb id locals.

Section CheckpointRule.

Variable policy : chkptOp.t.
Variable current_ts : Z.
Variable is_last_ts : bool.
Variable budget : hpc_scheduler_info.t.

Definition on_last_enabled : bool :=
  bool_decide (chkptOp.on_last policy = Some true).

Definition on_outta_time_enabled : bool :=
  bool_decide (chkptOp.on_outta_time policy = Some true).

(** "Frequency is set, the current timestep is nonzero, and the current
    timestep is a multiple of the frequency". *)
Definition frequency_due : bool :=
  match chkptOp.frequency policy with
  | Some f => bool_decide (current_ts <> 0) && bool_decide (f | current_ts)
  | None => false
  end.

(** The decision rule, in priority order; [combined] is the OR-combined
    distributed out-of-time decision. *)
Definition decision_rule (combined : bool) : bool :=
  if negb (chkptOp.do_checkpoint policy) then false
  else if on_last_enabled && is_last_ts then true
  else if frequency_due then true
  else if on_outta_time_enabled
          && hpc_scheduler_info.has_wallclock_limit budget
       then combined
       else false.

End CheckpointRule.

(** The local out-of-time check: remaining wall-clock <= safety margin. *)
Definition local_out_of_time (policy : chkptOp.t)
    (budget : hpc_scheduler_info.t) (now : ptime) : bool :=
  bool_decide (hpc_scheduler_info.wallclock_remaining budget now
               <= chkptOp.abort_when_wallclock_left policy).

(** No trigger but the frequency can fire. *)
Definition frequency_only (policy : chkptOp.t) : Prop :=
  chkptOp.do_checkpoint policy = true
  /\ chkptOp.on_last policy <> Some true
  /\ chkptOp.on_outta_time policy <> Some true.

(** The out-of-time trigger fires in an evaluation: the collective is
    performed and the evaluation answers yes. *)
Definition out_of_time_fires (c : chkptOp.call) (policy : chkptOp.t) : Prop :=
  run_trace (chkptOp.evaluate c) policy <> []
  /\ run_result (chkptOp.evaluate c) policy = Ok true.

End Design.

(** ** The branches the methods take *)

Module Branches.

Section OutputTests.

Variable d : output_info.t.
Variables max_ts current_ts : Z.
Variable current_date : ptime.

(** The four tests of [should_output], each as the boolean it computes. *)
Definition only_last_n_test : bool :=
  match output_info.only_last_n d with
  | Some n => size_sub max_ts current_ts <=? n
  | None => false
  end.

Definition frequency_test : bool :=
  match output_info.frequency d with
  | Some f => current_ts mod f =? 0
  | None => false
  end.

Definition specific_time_test : bool :=
  match output_info.specific_time d with
  | Some st =>
      (td_hours (time_of_day current_date) =? td_hours (time_of_day st))
      && (td_minutes (time_of_day current_date)
          =? td_minutes (time_of_day st))
  | None => false
  end.

Definition specific_datetime_test : bool :=
  match output_info.specific_datetime d with
  | Some dt => current_date =? dt
  | None => false
  end.

End OutputTests.

Section CheckpointPaths.

Variable policy : chkptOp.t.
Variable current_ts : Z.
Variable is_last_ts : bool.
Variable budget : hpc_scheduler_info.t.

(** The evaluation gets past the enabled flag and the on-last test. *)
Definition reaches_frequency_test : bool :=
  chkptOp.do_checkpoint policy
  && negb (chkptOp.engaged_and_true (chkptOp.on_last policy) && is_last_ts).

(** It then takes the remainder of a nonzero timestep by a zero frequency. *)
Definition divides_by_zero : bool :=
  reaches_frequency_test
  && bool_decide (chkptOp.frequency policy = Some 0)
  && bool_decide (current_ts <> 0).

(** It gets past the frequency test as well, into the guarded block that
    holds the all-reduce. *)
Definition reaches_consensus : bool :=
  reaches_frequency_test
  && match chkptOp.frequency policy with
     | Some f =>
         bool_decide (current_ts = 0)
         || (bool_decide (f <> 0) && negb (bool_decide (f | current_ts)))
     | None => true
     end
  && chkptOp.engaged_and_true (chkptOp.on_outta_time policy)
  && hpc_scheduler_info.has_wallclock_limit budget.

End CheckpointPaths.

End Branches.

(** ** Sample data used in the examples *)

Module Samples.

(** Cuts a string at each occurrence of [sep]. *)
Fixpoint fields (sep : Ascii.ascii) (s : string) : list string :=
  match s with
  | EmptyString => [EmptyString]
  | String c rest =>
      if Ascii.eqb c sep then EmptyString :: fields sep rest
      else match fields sep rest with
           | f :: fs => String c f :: fs
           | [] => [String c EmptyString]
           end
  end.

(** A nonempty run of decimal digits. *)
Definition digits (s : string) : option Z :=
  match s with
  | EmptyString => None
  | _ => option_map Z.of_uint (DecimalString.NilEmpty.uint_of_string s)
  end.

(** A strict "hh:mm:ss" reader, standing in for
    [duration_from_string] in the examples. *)
Definition clock_duration (s : string) : option time_duration :=
  match fields ":" s with
  | [h; m; sec] =>
      match digits h, digits m, digits sec with
      | Some h, Some m, Some sec => Some (seconds (h * 3600 + m * 60 + sec))
      | _, _, _ => None
      end
  | _ => None
  end.

(** A job started by SLURM (also carrying PBS-style variables) whose
    environment describes the job and its time limit, without the
    CHM override. *)
Definition scheduler_only_environ : gmap string string :=
  <["SLURM_JOB_ID" := "4242"]>
    (<["SLURM_TASK_PID" := "977"]>
      (<["SLURM_PROCID" := "0"]>
        (<["SLURM_JOB_END_TIME" := "1793318400"]>
          (<["SBATCH_TIMELIMIT" := "01:00:00"]>
            (<["PBS_JOBID" := "4242.head"]>
              (<["PBS_WALLTIME" := "3600"]> ∅)))))).

Definition override_environ (text : string) : gmap string string :=
  <["CHM_WALLCLOCK_LIMIT" := text]> scheduler_only_environ.

(** A policy that checkpoints every [f] timesteps and nothing else. *)
Definition every (f : Z) : chkptOp.t :=
  {| chkptOp.ckpt_path := "chkpt";
     chkptOp.do_checkpoint := true;
     chkptOp.load_from_checkpoint := false;
     chkptOp.abort_when_wallclock_left := minutes 2;
     chkptOp.on_outta_time := None;
     chkptOp.on_last := Some false;
     chkptOp.frequency := Some f;
     chkptOp.checkpoint_request_terminate := false |}.

(** A policy that checkpoints when running out of time. *)
Definition outta_time : chkptOp.t :=
  {| chkptOp.ckpt_path := "chkpt";
     chkptOp.do_checkpoint := true;
     chkptOp.load_from_checkpoint := false;
     chkptOp.abort_when_wallclock_left := minutes 2;
     chkptOp.on_outta_time := Some true;
     chkptOp.on_last := Some false;
     chkptOp.frequency := None;
     chkptOp.checkpoint_request_terminate := false |}.

(** The on-last option switched on in a default-constructed policy:
    checkpointing itself stays disabled. *)
Definition on_last_but_disabled : chkptOp.t :=
  {| chkptOp.ckpt_path := "";
     chkptOp.do_checkpoint := false;
     chkptOp.load_from_checkpoint := false;
     chkptOp.abort_when_wallclock_left := minutes 2;
     chkptOp.on_outta_time := None;
     chkptOp.on_last := Some true;
     chkptOp.frequency := None;
     chkptOp.checkpoint_request_terminate := false |}.

(** Checkpointing enabled with the on-last option; the frequency is zero. *)
Definition last_and_zero_frequency : chkptOp.t :=
  {| chkptOp.ckpt_path := "chkpt";
     chkptOp.do_checkpoint := true;
     chkptOp.load_from_checkpoint := false;
     chkptOp.abort_when_wallclock_left := minutes 2;
     chkptOp.on_outta_time := Some true;
     chkptOp.on_last := Some true;
     chkptOp.frequency := Some 0;
     chkptOp.checkpoint_request_terminate := false |}.

(** A one-hour budget that started at tick 0. *)
Definition one_hour : hpc_scheduler_info.t :=
  {| hpc_scheduler_info.max_wallclock := seconds 3600;
     hpc_scheduler_info.wallclock_start := 0;
     hpc_scheduler_info.has_wallclock_limit := true |}.

(** An evaluation one minute before the end of the one-hour budget. *)
Definition late_call : chkptOp.call :=
  chkptOp.mk_call 7 false one_hour (seconds 3540) [0; 0].

(** Evaluations after that, with time in hand again and peers at ease. *)
Definition later_calls : list chkptOp.call :=
  [chkptOp.mk_call 8 false one_hour (seconds 60) [0; 0];
   chkptOp.mk_call 9 true one_hour (seconds 120) [0; 0]].

(** A descriptor that writes every [f] timesteps. *)
Definition output_every (f : Z) : output_info.t :=
  {| output_info.type := Some output_info.mesh;
     output_info.name := "mesh";
     output_info.mesh_output_formats := [output_info.vtu];
     output_info.fname := "out";
     output_info.latitude := 0%float;
     output_info.longitude := 0%float;
     output_info.x := 0%float;
     output_info.y := 0%float;
     output_info.variables := ∅;
     output_info.face := None;
     output_info.frequency := Some f;
     output_info.specific_datetime := None;
     output_info.specific_time := None;
     output_info.only_last_n := None |}.

(** A descriptor that writes the last [n] timesteps only. *)
Definition output_last (n : Z) : output_info.t :=
  {| output_info.type := Some output_info.time_series;
     output_info.name := "station";
     output_info.mesh_output_formats := [];
     output_info.fname := "station.txt";
     output_info.latitude := 0%float;
     output_info.longitude := 0%float;
     output_info.x := 0%float;
     output_info.y := 0%float;
     output_info.variables := {["t"]};
     output_info.face := None;
     output_info.frequency := None;
     output_info.specific_datetime := None;
     output_info.specific_time := None;
     output_info.only_last_n := Some n |}.

(** The same triggers on a descriptor that differs in its other fields. *)
Definition renamed_output_every (f : Z) : output_info.t :=
  {| output_info.type := Some output_info.time_series;
     output_info.name := "station";
     output_info.mesh_output_formats := [];
     output_info.fname := "station.txt";
     output_info.latitude := 1%float;
     output_info.longitude := 2%float;
     output_info.x := 3%float;
     output_info.y := 4%float;
     output_info.variables := {["t"]};
     output_info.face := Some 17;
     output_info.frequency := Some f;
     output_info.specific_datetime := None;
     output_info.specific_time := None;
     output_info.only_last_n := None |}.

End Samples.

(** ** class edge_writer *)

Module graphviz.

(** [struct edge]. *)
Record edge : Type := mk_edge { variable : string }.

(** The character written as a backslash-escaped quote in the source. *)
Definition double_quote : string := String "034"%char EmptyString.

(** [out << text] on an output stream: the text goes to the end. *)
Definition put (out text : string) : string := out +:+ text.

(** [edge_writer::operator()(out, e)], with the property map [vm]. *)
Definition edge_writer {Edge : Type} (vm : Edge -> string) (out : string)
    (e : Edge) : string :=
  put (put (put (put (put out ("[label=" +:+ double_quote)) (vm e))
                 (double_quote +:+ ", edgetype=")) (vm e)) "]".

End graphviz.

(** ** output_info::list_outputs *)

Module listing.

(** An argument handed to the debug logger. *)
Inductive log_arg : Type :=
| arg_string (s : string)
| arg_size (n : Z).

(** One [SPDLOG_DEBUG(format, arg)] call. *)
Record debug_line : Type := debug { format : string; arg : log_arg }.

Definition tab : string := String "009"%char EmptyString.

(** [std::to_string] on an integer. *)
Definition to_string (n : Z) : string :=
  DecimalString.NilZero.string_of_int (Z.to_int n).

Section ListOutputs.

(** [boost::posix_time::to_simple_string]. *)
Variable to_simple_string : ptime -> string.

(** [void list_outputs()]: the lines it hands to the logger, in order. It
    assigns to no member. *)
Definition list_outputs (self : output_info.t) : list debug_line :=
  [debug "Output frequency options for {}"
     (arg_string (output_info.name self))]
  ++ match output_info.only_last_n self with
     | Some n => [debug (tab +:+ "only_last_n = {}") (arg_size n)]
     | None => []
     end
  ++ match output_info.frequency self with
     | Some f => [debug (tab +:+ "frequency = {}") (arg_size f)]
     | None => []
     end
  ++ match output_info.specific_time self with
     | Some st =>
         [debug (tab +:+ "specific_time = {}")
            (arg_string
               (to_string (td_hours (time_of_day st))
                +:+ ":" +:+ to_string (td_minutes (time_of_day st))))]
     | None => []
     end
  ++ match output_info.specific_datetime self with
     | Some dt =>
         [debug (tab +:+ "specific_datetime = {}")
            (arg_string (to_simple_string dt))]
     | None => []
     end.

End ListOutputs.

End listing.

(** ** Further notions used by the properties *)

Module Notions.

(** The minute of the day a timestamp falls in. *)
Definition minute_of_day (t : ptime) : Z :=
  time_of_day t / ticks_per_minute.

(** A descriptor with no trigger but "at this time of day". *)
Definition only_at_time (st : ptime) (d : output_info.t) : Prop :=
  output_info.only_last_n d = None
  /\ output_info.frequency d = None
  /\ output_info.specific_time d = Some st
  /\ output_info.specific_datetime d = None.

(** Two policies with the same trigger settings; the safety margin, the
    paths and the termination flag may differ. *)
Definition same_settings (p1 p2 : chkptOp.t) : Prop :=
  chkptOp.do_checkpoint p1 = chkptOp.do_checkpoint p2
  /\ chkptOp.on_last p1 = chkptOp.on_last p2
  /\ chkptOp.frequency p1 = chkptOp.frequency p2
  /\ chkptOp.on_outta_time p1 = chkptOp.on_outta_time p2.

(** Every evaluation of a run consults the same budget. *)
Definition all_consult (budget : hpc_scheduler_info.t)
    (cs : list chkptOp.call) : Prop :=
  Forall (fun c => chkptOp.scheduler_info c = budget) cs.

(** An evaluation, as one rank of a distributed run sees it: the local
    out-of-time results of the ranks before and after it. *)
Record rank_view : Type := mk_rank_view {
  view_policy : chkptOp.t;
  view_ts : Z;
  view_last : bool;
  view_budget : hpc_scheduler_info.t;
  view_now : ptime;
  view_before : list bool;
  view_after : list bool
}.

(** The local results of all ranks, in rank order. *)
Definition view_locals (v : rank_view) : list bool :=
  view_before v
  ++ Design.local_out_of_time (view_policy v) (view_budget v) (view_now v)
  :: view_after v.

(** The call this rank makes. *)
Definition view_run (v : rank_view) : result bool * chkptOp.t * list event :=
  chkptOp.should_checkpoint (view_ts v) (view_last v) (view_budget v)
    (view_now v) (int_of_bool <$> (view_before v ++ view_after v))
    (view_policy v).

Definition view_reaches_consensus (v : rank_view) : bool :=
  Branches.reaches_consensus (view_policy v) (view_ts v) (view_last v)
    (view_budget v).

End Notions.

(** ** More sample data *)

Module MoreSamples.

(** Rank 0 of three, one minute before the end of its budget. *)
Definition rank0 : Notions.rank_view :=
  Notions.mk_rank_view Samples.outta_time 7 false Samples.one_hour
    (seconds 3540) [] [false; false].

(** Rank 2 of the same run, with time in hand. *)
Definition rank2 : Notions.rank_view :=
  Notions.mk_rank_view Samples.outta_time 7 false Samples.one_hour
    (seconds 600) [true; false] [].

(** A descriptor that writes at 06:30 every day. *)
Definition output_at_0630 : output_info.t :=
  {| output_info.type := Some output_info.mesh;
     output_info.name := "mesh";
     output_info.mesh_output_formats := [output_info.vtu];
     output_info.fname := "out";
     output_info.latitude := 0%float;
     output_info.longitude := 0%float;
     output_info.x := 0%float;
     output_info.y := 0%float;
     output_info.variables := ∅;
     output_info.face := None;
     output_info.frequency := None;
     output_info.specific_datetime := None;
     output_info.specific_time := Some (6 * ticks_per_hour + minutes 30);
     output_info.only_last_n := None |}.

(** A descriptor on which no trigger is configured. *)
Definition output_never : output_info.t :=
  {| output_info.type := Some output_info.mesh;
     output_info.name := "mesh";
     output_info.mesh_output_formats := [output_info.vtu];
     output_info.fname := "out";
     output_info.latitude := 0%float;
     output_info.longitude := 0%float;
     output_info.x := 0%float;
     output_info.y := 0%float;
     output_info.variables := ∅;
     output_info.face := None;
     output_info.frequency := None;
     output_info.specific_datetime := None;
     output_info.specific_time := None;
     output_info.only_last_n := None |}.

(** A default-constructed descriptor on which a frequency was then set. *)
Definition default_with_frequency (f : Z) : output_info.t :=
  {| output_info.type := None;
     output_info.name := "";
     output_info.mesh_output_formats := [];
     output_info.fname := "";
     output_info.latitude := 0%float;
     output_info.longitude := 0%float;
     output_info.x := 0%float;
     output_info.y := 0%float;
     output_info.variables := ∅;
     output_info.face := None;
     output_info.frequency := Some f;
     output_info.specific_datetime := None;
     output_info.specific_time := None;
     output_info.only_last_n := Some SIZE_MAX |}.

(** Evaluations that consult a default-constructed budget. *)
Definition unlimited_calls : list chkptOp.call :=
  [chkptOp.mk_call 1 false hpc_scheduler_info.hpc_scheduler_info
     (seconds 100) [1];
   chkptOp.mk_call 2 true hpc_scheduler_info.hpc_scheduler_info
     (seconds 200) [1]].

(** A stand-in for [to_simple_string] in the examples. *)
Definition ticks_string (t : ptime) : string := listing.to_string t.

End MoreSamples.

(** * Properties *)

(** ** Shared lemmas and tactics *)

Lemma size_t_modulus_value : size_t_modulus = 18446744073709551616.
Proof. reflexivity. Qed.

Ltac run_unfold :=
  unfold mbind, mret, Run_bind, Run_ret, bind, ret, this, assign, emit,
    defined, raise, size_rem.

Ltac size_t_arith :=
  unfold is_size_t in *; rewrite ?size_t_modulus_value in *; lia.

Ltac split_tests :=
  repeat match goal with
    | |- context [Z.leb ?a ?b] => destruct (Z.leb a b)
    | |- context [Z.eqb ?a ?b] => destruct (Z.eqb a b)
    end.

(** ** Output trigger evaluation *)

Section OutputPolicy.

Import output_info Design Branches.

Implicit Types (d : output_info.t) (max_ts current_ts : Z) (date : ptime).

(** What a call does, in closed form: it faults on a zero frequency and
  otherwise answers with the disjunction of the four tests; the object
  is handed back as it was and nothing is communicated. *)
Lemma should_output_eq d max_ts current_ts date :
should_output max_ts current_ts date d =
(if bool_decide (frequency d = Some 0) then Raise DivideByZero
 else Ok (only_last_n_test d max_ts current_ts
          || frequency_test d current_ts
          || specific_time_test d date
          || specific_datetime_test d date),
 d, []).
Proof.
unfold should_output, only_last_n_test, frequency_test,
  specific_time_test, specific_datetime_test.
run_unfold.
destruct (only_last_n d) as [n|], (frequency d) as [f|],
  (specific_time d) as [st|], (specific_datetime d) as [dt|]; simpl.
all: try (destruct (Z.eqb_spec f 0) as [->|Hf];
          [ rewrite bool_decide_eq_true_2 by reflexivity
          | rewrite bool_decide_eq_false_2 by congruence ]; simpl).
all: split_tests; reflexivity.
Qed.

Lemma only_last_n_test_spec d max_ts current_ts :
only_last_n_test d max_ts current_ts = true
<-> only_last_n_matches d max_ts current_ts.
Proof.
unfold only_last_n_test, only_last_n_matches.
destruct (only_last_n d) as [n|].
- rewrite Z.leb_le. split; [eauto | intros (m & [= <-] & H); exact H].
- split; [discriminate | intros (m & [=] & _)].
Qed.

Lemma frequency_test_spec d current_ts :
frequency d <> Some 0 ->
frequency_test d current_ts = true <-> frequency_matches d current_ts.
Proof.
unfold frequency_test, frequency_matches. intros Hnz.
destruct (frequency d) as [f|].
- assert (f <> 0) as Hf by congruence.
  rewrite Z.eqb_eq, (Z.mod_divide _ _ Hf).
  split; [eauto | intros (g & [= <-] & H); exact H].
- split; [discriminate | intros (g & [=] & _)].
Qed.

Lemma specific_time_test_spec d date :
specific_time_test d date = true <-> specific_time_matches d date.
Proof.
unfold specific_time_test, specific_time_matches.
destruct (specific_time d) as [st|].
- rewrite andb_true_iff, !Z.eqb_eq.
  split; [eauto | intros (s & [= <-] & H); exact H].
- split; [discriminate | intros (s & [=] & _)].
Qed.

Lemma specific_datetime_test_spec d date :
specific_datetime_test d date = true <-> specific_datetime_matches d date.
Proof.
unfold specific_datetime_test, specific_datetime_matches.
destruct (specific_datetime d) as [dt|].
- rewrite Z.eqb_eq. split; [congruence | intros [= <-]; reflexivity].
- split; discriminate.
Qed.

Lemma should_output_result d max_ts current_ts date :
frequency d <> Some 0 ->
exists b,
  run_result (should_output max_ts current_ts date) d = Ok b
  /\ (b = true <-> some_trigger_matches d max_ts current_ts date).
Proof.
intros Hnz. unfold run_result. rewrite should_output_eq.
rewrite bool_decide_eq_false_2 by exact Hnz. simpl.
eexists; split; [reflexivity |].
unfold some_trigger_matches.
rewrite !orb_true_iff, only_last_n_test_spec,
  (frequency_test_spec _ _ Hnz), specific_time_test_spec,
  specific_datetime_test_spec.
tauto.
Qed.

Lemma size_sub_bounds a b : 0 <= size_sub a b <= SIZE_MAX.
Proof.
  unfold size_sub, SIZE_MAX.
  pose proof (Z.mod_pos_bound (a - b) size_t_modulus eq_refl). lia.
Qed.

Lemma size_sub_exact a b :
  is_size_t a -> is_size_t b -> b <= a -> size_sub a b = a - b.
Proof.
  unfold is_size_t, size_sub. intros Ha Hb Hle.
  apply Z.mod_small. lia.
Qed.

Lemma size_sub_wraps a b :
  is_size_t a -> is_size_t b -> a < b ->
  size_sub a b = a - b + size_t_modulus.
Proof.
  unfold is_size_t, size_sub. intros Ha Hb Hlt.
  rewrite <- (Z.mod_add (a - b) 1 size_t_modulus) by discriminate.
  apply Z.mod_small. lia.
Qed.

(** C2 (as amended). For every output descriptor whose frequency is unset
    or nonzero, [should_output] returns, and returns true exactly when at
    least one configured trigger matches: "only last n" when
    [max_ts - current_ts <= n] in [size_t] arithmetic, "frequency" when
    [current_ts] is a multiple of it, "specific time" on the hour and minute
    of the current date, "specific datetime" on the current date itself.
    With [max_ts = 100] and only [only_last_n = 5] it answers true exactly
    for [current_ts] in [95, 100]; with only [frequency = 10] exactly at the
    multiples of 10; with no trigger configured it answers false. *)
Theorem should_output_or_of_triggers d max_ts current_ts date :
  frequency d <> Some 0 ->
  (exists b,
     run_result (should_output max_ts current_ts date) d = Ok b
     /\ (b = true <-> some_trigger_matches d max_ts current_ts date))
  /\ (only_last 5 d -> is_size_t current_ts ->
      run_result (should_output 100 current_ts date) d = Ok true
      <-> 95 <= current_ts <= 100)
  /\ (only_every 10 d ->
      run_result (should_output max_ts current_ts date) d = Ok true
      <-> (10 | current_ts))
  /\ (no_trigger d ->
      run_result (should_output max_ts current_ts date) d = Ok false).
Proof.
  intros Hnz. split; [apply should_output_result; exact Hnz |].
  unfold run_result. rewrite !should_output_eq.
  rewrite bool_decide_eq_false_2 by exact Hnz. simpl.
  unfold only_last_n_test, frequency_test, specific_time_test,
    specific_datetime_test.
  split; [| split].
  - intros (-> & -> & -> & ->) Hts. simpl. rewrite !orb_false_r.
    destruct (Z_lt_le_dec 100 current_ts) as [Hgt | Hle].
    + rewrite size_sub_wraps by size_t_arith.
      unfold is_size_t in Hts. rewrite size_t_modulus_value in *.
      destruct (Z.leb_spec (100 - current_ts + 18446744073709551616) 5)
        as [Hc | Hc]; split; try discriminate; lia.
    + rewrite size_sub_exact by size_t_arith.
      destruct (Z.leb_spec (100 - current_ts) 5) as [Hc | Hc];
        split; try discriminate; try reflexivity; lia.
  - intros (-> & -> & -> & ->). simpl. rewrite !orb_false_r.
    rewrite <- (Z.mod_divide current_ts 10) by discriminate.
    destruct (Z.eqb_spec (current_ts mod 10) 0) as [Hc | Hc];
      split; try discriminate; try reflexivity; try congruence.
  - intros (-> & -> & -> & ->). reflexivity.
Qed.

Lemma should_output_or_of_triggers_witness :
  frequency (Samples.output_every 10) <> Some 0
  /\ only_every 10 (Samples.output_every 10)
  /\ run_result (should_output 100 30 0) (Samples.output_every 10) = Ok true
  /\ frequency (Samples.output_last 5) <> Some 0
  /\ only_last 5 (Samples.output_last 5)
  /\ is_size_t 97
  /\ run_result (should_output 100 97 0) (Samples.output_last 5) = Ok true.
Proof.
  assert (frequency (Samples.output_every 10) <> Some 0) as Hnz
    by discriminate.
  assert (only_every 10 (Samples.output_every 10)) as Hevery
    by (repeat split; reflexivity).
  assert (frequency (Samples.output_last 5) <> Some 0) as Hnz'
    by discriminate.
  assert (only_last 5 (Samples.output_last 5)) as Hlast
    by (repeat split; reflexivity).
  assert (is_size_t 97) as Hsize by (split; [lia | reflexivity]).
  pose proof (should_output_or_of_triggers (Samples.output_every 10)
                100 30 0 Hnz) as (_ & _ & Hten & _).
  pose proof (should_output_or_of_triggers (Samples.output_last 5)
                100 97 0 Hnz') as (_ & Hfive & _).
  split; [exact Hnz |]. split; [exact Hevery |]. split.
  - apply (Hten Hevery). exists 3. reflexivity.
  - split; [exact Hnz' |]. split; [exact Hlast |]. split; [exact Hsize |].
    apply (Hfive Hlast Hsize). lia.
Defined.

(** C2 (as stated) fails on a descriptor whose frequency is zero: the
    remainder [current_ts % 0] has no value, so the call does not return
    the boolean the triggers determine. *)
Lemma should_output_zero_frequency_counterexample :
  run_result (should_output 100 5 0) (Samples.output_every 0)
    = Raise DivideByZero
  /\ ~ (exists b,
         run_result (should_output 100 5 0) (Samples.output_every 0) = Ok b
         /\ (b = true
             <-> some_trigger_matches (Samples.output_every 0) 100 5 0)).
Proof.
  split; [reflexivity |]. intros (b & H & _). discriminate H.
Qed.

(** C9. [should_output] is pure: every call leaves every field of the
    descriptor as it was and communicates nothing, and its outcome is
    determined by the arguments and the four trigger fields alone, so two
    descriptors that agree on those fields get equal outcomes. *)
Theorem should_output_pure d max_ts current_ts date :
  run_state (should_output max_ts current_ts date) d = d
  /\ run_trace (should_output max_ts current_ts date) d = []
  /\ forall d',
       same_triggers d d' ->
       run_result (should_output max_ts current_ts date) d'
       = run_result (should_output max_ts current_ts date) d.
Proof.
  unfold run_state, run_trace, run_result. rewrite should_output_eq.
  repeat split. intros d' (Hn & Hf & Ht & Hd).
  rewrite should_output_eq.
  unfold only_last_n_test, frequency_test, specific_time_test,
    specific_datetime_test.
  rewrite Hn, Hf, Ht, Hd. reflexivity.
Qed.

Lemma should_output_pure_witness :
  same_triggers (Samples.output_every 10) (Samples.renamed_output_every 10)
  /\ run_result (should_output 100 30 0) (Samples.renamed_output_every 10)
     = run_result (should_output 100 30 0) (Samples.output_every 10).
Proof.
  assert (same_triggers (Samples.output_every 10)
            (Samples.renamed_output_every 10)) as H
    by (repeat split; reflexivity).
  split; [exact H |].
  exact (proj2 (proj2 (should_output_pure (Samples.output_every 10) 100 30 0))
           (Samples.renamed_output_every 10) H).
Defined.

(** C10. A default-constructed descriptor has [only_last_n] engaged with
    [SIZE_MAX] and every other trigger unset, so it is not in a "no
    trigger" state, and [should_output] answers true for every
    [(max_ts, current_ts, date)]. *)
Theorem default_output_info_always_outputs max_ts current_ts date :
  only_last_n output_info = Some SIZE_MAX
  /\ ~ no_trigger output_info
  /\ run_result (should_output max_ts current_ts date) output_info = Ok true.
Proof.
  split; [reflexivity |]. split; [intros [[=] _] |].
  unfold run_result. rewrite should_output_eq. simpl.
  unfold only_last_n_test. simpl.
  destruct (Z.leb_spec (size_sub max_ts current_ts) SIZE_MAX) as [_ | Hlt];
    [reflexivity |].
  pose proof (size_sub_bounds max_ts current_ts). lia.
Qed.

End OutputPolicy.

(** ** Checkpoint decision *)

Section CheckpointPolicy.

Import chkptOp Design Branches.

Implicit Types (policy : chkptOp.t) (budget : hpc_scheduler_info.t)
  (comm : mpi.communicator) (now : ptime).

Lemma leb_bool_decide (a b : Z) : (a <=? b) = bool_decide (a <= b).
Proof.
  destruct (Z.leb_spec a b); case_bool_decide; (reflexivity || lia).
Qed.

Lemma rem_zero_bool_decide (n f : Z) :
  f <> 0 -> (n mod f =? 0) = bool_decide (f | n).
Proof.
  intros Hf. destruct (Z.eqb_spec (n mod f) 0) as [H | H];
    case_bool_decide as Hd; try reflexivity.
  - apply Z.mod_divide in H; [contradiction | exact Hf].
  - apply Z.mod_divide in Hd; [contradiction | exact Hf].
Qed.

Lemma engaged_and_true_on_last policy :
  engaged_and_true (on_last policy) = on_last_enabled policy.
Proof.
  unfold on_last_enabled. destruct (on_last policy) as [[]|]; reflexivity.
Qed.

Lemma engaged_and_true_on_outta_time policy :
  engaged_and_true (on_outta_time policy) = on_outta_time_enabled policy.
Proof.
  unfold on_outta_time_enabled.
  destruct (on_outta_time policy) as [[]|]; reflexivity.
Qed.

Lemma should_checkpoint_eq policy ts last budget now comm :
  should_checkpoint ts last budget now comm policy =
  if reaches_consensus policy ts last budget then
    let outoftime := int_of_bool (local_out_of_time policy budget now) in
    let global := bool_of_int (mpi.all_reduce comm outoftime mpi.maximum) in
    (Ok global,
     if global then set_checkpoint_request_terminate true policy else policy,
     [AllReduceMaximum outoftime])
  else if divides_by_zero policy ts last then (Raise DivideByZero, policy, [])
  else (Ok (decision_rule policy ts last budget false), policy, []).
Proof.
  unfold should_checkpoint, reaches_consensus, divides_by_zero,
    reaches_frequency_test, decision_rule, frequency_due, local_out_of_time.
  run_unfold.
  rewrite engaged_and_true_on_last, engaged_and_true_on_outta_time,
    leb_bool_decide.
  destruct (do_checkpoint policy); simpl; [| reflexivity].
  destruct (on_last_enabled policy && last); simpl; [reflexivity |].
  destruct (frequency policy) as [f |]; simpl.
  - destruct (Z.eqb_spec ts 0) as [-> | Hts]; simpl;
      [| destruct (Z.eqb_spec f 0) as [-> | Hf]; simpl;
         [| rewrite (rem_zero_bool_decide ts f Hf)]].
    all: repeat case_bool_decide; try congruence; simpl.
    all: try reflexivity.
    all: destruct (on_outta_time_enabled policy
                   && hpc_scheduler_info.has_wallclock_limit budget); simpl;
      try reflexivity.
    all: destruct (bool_of_int _); reflexivity.
  - destruct (on_outta_time_enabled policy
              && hpc_scheduler_info.has_wallclock_limit budget) eqn:E; simpl;
      [| reflexivity].
    destruct (bool_of_int _); reflexivity.
Qed.

(** The maximum of 0/1 values is the 0/1 value of their disjunction. *)
Lemma all_reduce_maximum_or (mine : bool) (peers : list bool) :
  mpi.all_reduce (int_of_bool <$> peers) (int_of_bool mine) mpi.maximum
  = int_of_bool (logical_or (mine :: peers)).
Proof.
  unfold mpi.all_reduce, logical_or. simpl.
  induction peers as [| p peers IH]; simpl.
  - rewrite orb_false_r. reflexivity.
  - change (list_fmap bool Z int_of_bool peers) with (int_of_bool <$> peers).
    rewrite IH. unfold mpi.maximum.
    destruct p, mine, (existsb id peers); reflexivity.
Qed.

(** The disjunction does not depend on the rank at which a value sits. *)
Lemma logical_or_rank (before after : list bool) (mine : bool) :
  logical_or (before ++ mine :: after) = logical_or (mine :: before ++ after).
Proof.
  unfold logical_or. simpl. rewrite !existsb_app. simpl.
  destruct (existsb id before), mine, (existsb id after); reflexivity.
Qed.

Lemma logical_or_true (locals : list bool) :
  logical_or locals = true <-> In true locals.
Proof.
  unfold logical_or. rewrite existsb_exists. split.
  - intros (b & Hin & Hb). unfold id in Hb. subst b. exact Hin.
  - intros Hin. exists true. split; [exact Hin | reflexivity].
Qed.

Lemma bool_of_int_of_bool (b : bool) : bool_of_int (int_of_bool b) = b.
Proof. destruct b; reflexivity. Qed.

(** The state after a call: the flag is raised when the consensus is
    reached and answers yes; no other field is ever assigned. *)
Lemma should_checkpoint_flag policy ts last budget now comm :
  checkpoint_request_terminate
    (run_state (should_checkpoint ts last budget now comm) policy)
  = checkpoint_request_terminate policy
    || (reaches_consensus policy ts last budget
        && bool_of_int
             (mpi.all_reduce comm
                (int_of_bool (local_out_of_time policy budget now))
                mpi.maximum)).
Proof.
  unfold run_state. rewrite should_checkpoint_eq.
  destruct (reaches_consensus policy ts last budget); simpl.
  - destruct (bool_of_int _); simpl;
      [rewrite orb_true_r | rewrite orb_false_r]; reflexivity.
  - rewrite orb_false_r. destruct (divides_by_zero policy ts last); reflexivity.
Qed.

Lemma evaluations_state_cons policy c cs :
  run_state (evaluations (c :: cs)) policy
  = match run_result (evaluate c) policy with
    | Ok _ => run_state (evaluations cs) (run_state (evaluate c) policy)
    | Raise _ => run_state (evaluate c) policy
    end.
Proof.
  unfold run_state, run_result. simpl. run_unfold.
  destruct (evaluate c policy) as [[[b | e] s1] tr1]; simpl; [| reflexivity].
  destruct (evaluations cs s1) as [[[bs | e] s2] tr2]; reflexivity.
Qed.

Lemma evaluations_keep_flag cs policy :
  checkpoint_request_terminate policy = true ->
  checkpoint_request_terminate (run_state (evaluations cs) policy) = true.
Proof.
  revert policy. induction cs as [| c cs IH]; intros policy Hflag.
  - exact Hflag.
  - rewrite evaluations_state_cons.
    assert (checkpoint_request_terminate (run_state (evaluate c) policy)
            = true) as Hnext.
    { unfold evaluate. rewrite should_checkpoint_flag, Hflag. reflexivity. }
    destruct (run_result (evaluate c) policy); [apply IH |]; exact Hnext.
Qed.

Lemma frequency_only_flags policy :
  frequency_only policy ->
  do_checkpoint policy = true
  /\ on_last_enabled policy = false
  /\ on_outta_time_enabled policy = false.
Proof.
  intros (Hdo & Hlast & Hout).
  unfold on_last_enabled, on_outta_time_enabled.
  rewrite !bool_decide_eq_false_2 by assumption. auto.
Qed.

(** C1 (as amended). For every checkpoint policy whose frequency is unset
    or nonzero, every timestep and last-timestep flag, [should_checkpoint]
    returns the value of the priority-ordered decision rule, the out-of-time
    step taking the logical OR of the local out-of-time results of this
    process and its peers. The frequency trigger never fires at timestep 0,
    and with frequency 4 and the other triggers off, over timesteps 0 to 9
    the answer is yes exactly at 4 and 8. *)
Theorem should_checkpoint_decision_rule policy ts last budget now
    (peers : list bool) :
  frequency policy <> Some 0 ->
  run_result
    (should_checkpoint ts last budget now (int_of_bool <$> peers)) policy
  = Ok (decision_rule policy ts last budget
          (logical_or (local_out_of_time policy budget now :: peers)))
  /\ frequency_due policy 0 = false
  /\ (frequency_only policy ->
      run_result
        (should_checkpoint 0 last budget now (int_of_bool <$> peers)) policy
      = Ok false)
  /\ (frequency policy = Some 4 -> frequency_only policy -> 0 <= ts <= 9 ->
      run_result
        (should_checkpoint ts last budget now (int_of_bool <$> peers)) policy
      = Ok true
      <-> ts = 4 \/ ts = 8).
Proof.
  intros Hnz.
  assert (forall t,
    run_result
      (should_checkpoint t last budget now (int_of_bool <$> peers)) policy
    = Ok (decision_rule policy t last budget
            (logical_or (local_out_of_time policy budget now :: peers))))
    as Hrule.
  { intros t. unfold run_result. rewrite should_checkpoint_eq. cbv zeta.
    rewrite all_reduce_maximum_or, bool_of_int_of_bool.
    unfold reaches_consensus, divides_by_zero, reaches_frequency_test,
      decision_rule, frequency_due.
    rewrite engaged_and_true_on_last, engaged_and_true_on_outta_time.
    rewrite (bool_decide_eq_false_2 _ Hnz), andb_false_r.
    destruct (do_checkpoint policy); simpl; [| reflexivity].
    destruct (on_last_enabled policy && last); simpl; [reflexivity |].
    destruct (frequency policy) as [f |]; simpl.
    - assert (f <> 0) as Hf by congruence.
      rewrite (bool_decide_eq_true_2 _ Hf). simpl.
      destruct (bool_decide (f | t)); repeat case_bool_decide;
        try congruence; simpl;
        destruct (on_outta_time_enabled policy
                  && hpc_scheduler_info.has_wallclock_limit budget);
        reflexivity.
    - destruct (on_outta_time_enabled policy
                && hpc_scheduler_info.has_wallclock_limit budget);
        reflexivity. }
  assert (frequency_due policy 0 = false) as Hzero.
  { unfold frequency_due. destruct (frequency policy); [| reflexivity].
    rewrite bool_decide_eq_false_2 by congruence. reflexivity. }
  split; [apply Hrule |]. split; [exact Hzero |]. split.
  - intros Honly. apply frequency_only_flags in Honly as (Hdo & Hl & Ho).
    rewrite Hrule. unfold decision_rule.
    rewrite Hdo, Hl, Ho, Hzero. reflexivity.
  - intros Hfour Honly Hts.
    apply frequency_only_flags in Honly as (Hdo & Hl & Ho).
    rewrite Hrule. unfold decision_rule, frequency_due.
    rewrite Hdo, Hl, Ho, Hfour. simpl.
    assert (ts = 0 \/ ts = 1 \/ ts = 2 \/ ts = 3 \/ ts = 4 \/ ts = 5
            \/ ts = 6 \/ ts = 7 \/ ts = 8 \/ ts = 9) as Hcases by lia.
    repeat (destruct Hcases as [-> | Hcases]); try subst ts;
      (split;
       [ intros H; vm_compute in H; first [discriminate H | lia]
       | intros [H | H]; first [discriminate H | vm_compute; reflexivity] ]).
Qed.

Lemma should_checkpoint_decision_rule_witness :
  frequency (Samples.every 4) <> Some 0
  /\ frequency_only (Samples.every 4)
  /\ run_result (should_checkpoint 8 false Samples.one_hour 0 [])
       (Samples.every 4) = Ok true
  /\ run_result (should_checkpoint 0 false Samples.one_hour 0 [])
       (Samples.every 4) = Ok false.
Proof.
  assert (frequency (Samples.every 4) <> Some 0) as Hnz by discriminate.
  assert (frequency_only (Samples.every 4)) as Honly
    by (repeat split; discriminate).
  pose proof (should_checkpoint_decision_rule (Samples.every 4) 8 false
                Samples.one_hour 0 [] Hnz) as (_ & _ & Hzero & Hfour).
  split; [exact Hnz |]. split; [exact Honly |]. split.
  - apply (Hfour eq_refl Honly); lia.
  - exact (Hzero Honly).
Defined.

(** C1 (as stated) fails on a policy whose frequency is zero: at a nonzero
    timestep the remainder [current_ts % 0] has no value and the call does
    not return what the decision rule says. *)
Lemma should_checkpoint_zero_frequency_counterexample :
  run_result (should_checkpoint 5 false Samples.one_hour 0 []) (Samples.every 0)
    = Raise DivideByZero
  /\ run_result (should_checkpoint 5 false Samples.one_hour 0 [])
       (Samples.every 0)
     <> Ok (decision_rule (Samples.every 0) 5 false Samples.one_hour
              (logical_or
                 [local_out_of_time (Samples.every 0) Samples.one_hour 0])).
Proof.
  split; [reflexivity | discriminate].
Qed.

(** C3. The termination-request flag is sticky: whatever sequence of
    [should_checkpoint] evaluations follows, a flag that is set stays set,
    and an evaluation in which the out-of-time trigger fires sets it for
    itself and for all that follow. *)
Theorem checkpoint_request_terminate_sticky policy (c : call)
    (cs : list call) :
  (checkpoint_request_terminate policy = true ->
   checkpoint_request_terminate (run_state (evaluations cs) policy) = true)
  /\ (out_of_time_fires c policy ->
      checkpoint_request_terminate (run_state (evaluate c) policy) = true
      /\ checkpoint_request_terminate
           (run_state (evaluations (c :: cs)) policy) = true).
Proof.
  split; [apply evaluations_keep_flag |].
  intros (Htrace & Hres).
  assert (checkpoint_request_terminate (run_state (evaluate c) policy) = true)
    as Hset.
  { revert Htrace Hres. unfold run_trace, run_result, run_state, evaluate.
    rewrite should_checkpoint_eq.
    destruct (reaches_consensus _ _ _ _); simpl.
    - intros _ [= ->]. reflexivity.
    - destruct (divides_by_zero _ _ _); simpl; congruence. }
  split; [exact Hset |].
  rewrite evaluations_state_cons, Hres.
  apply evaluations_keep_flag. exact Hset.
Qed.

Lemma checkpoint_request_terminate_sticky_witness :
  out_of_time_fires Samples.late_call Samples.outta_time
  /\ checkpoint_request_terminate
       (run_state
          (evaluations (Samples.late_call :: Samples.later_calls))
          Samples.outta_time) = true
  /\ checkpoint_request_terminate
       (run_state (evaluate Samples.late_call) Samples.outta_time) = true
  /\ checkpoint_request_terminate
       (run_state (evaluations Samples.later_calls)
          (run_state (evaluate Samples.late_call) Samples.outta_time)) = true.
Proof.
  assert (out_of_time_fires Samples.late_call Samples.outta_time) as Hfires
    by (split; [discriminate | reflexivity]).
  pose proof (proj2 (checkpoint_request_terminate_sticky Samples.outta_time
                       Samples.late_call Samples.later_calls) Hfires)
    as [Hone Hall].
  split; [exact Hfires |]. split; [exact Hall |]. split; [exact Hone |].
  apply (proj1 (checkpoint_request_terminate_sticky
                  (run_state (evaluate Samples.late_call) Samples.outta_time)
                  Samples.late_call Samples.later_calls)).
  exact Hone.
Defined.

(** C4. The distributed decision of [should_checkpoint] is the logical OR
    of the local out-of-time results: the maximum all-reduce of the
    0/1-valued local results gives every rank 1 if some process's local
    check was true and 0 otherwise, and an evaluation that reaches the
    consensus performs exactly that all-reduce on its own local result and
    returns the OR of all local results; when the OR is true it sets the
    termination flag and returns true, and when it is false it returns
    false and leaves the policy as it was. *)
Theorem maximum_all_reduce_is_logical_or (before after : list bool)
    policy ts last budget now :
  let mine := local_out_of_time policy budget now in
  let locals := before ++ mine :: after in
  let comm := int_of_bool <$> (before ++ after) in
  mpi.all_reduce comm (int_of_bool mine) mpi.maximum
    = int_of_bool (logical_or locals)
  /\ (mpi.all_reduce comm (int_of_bool mine) mpi.maximum = 1
      <-> In true locals)
  /\ (mpi.all_reduce comm (int_of_bool mine) mpi.maximum = 0
      <-> ~ In true locals)
  /\ (reaches_consensus policy ts last budget = true ->
      should_checkpoint ts last budget now comm policy
      = (Ok (logical_or locals),
         if logical_or locals
         then set_checkpoint_request_terminate true policy
         else policy,
         [AllReduceMaximum (int_of_bool mine)]))
  /\ (reaches_consensus policy ts last budget = true ->
      logical_or locals = true ->
      run_result (should_checkpoint ts last budget now comm) policy = Ok true
      /\ checkpoint_request_terminate
           (run_state (should_checkpoint ts last budget now comm) policy)
         = true).
Proof.
  intros mine locals comm.
  assert (mpi.all_reduce comm (int_of_bool mine) mpi.maximum
          = int_of_bool (logical_or locals)) as Hmax.
  { unfold comm, locals. rewrite all_reduce_maximum_or, logical_or_rank.
    reflexivity. }
  assert (reaches_consensus policy ts last budget = true ->
          should_checkpoint ts last budget now comm policy
          = (Ok (logical_or locals),
             if logical_or locals
             then set_checkpoint_request_terminate true policy
             else policy,
             [AllReduceMaximum (int_of_bool mine)])) as Hcall.
  { intros Hreach. rewrite should_checkpoint_eq, Hreach. cbv zeta.
    fold mine. rewrite Hmax, bool_of_int_of_bool. reflexivity. }
  split; [exact Hmax |]. rewrite Hmax, <- logical_or_true.
  split; [| split; [| split]].
  - destruct (logical_or locals); simpl; split; congruence.
  - destruct (logical_or locals); simpl; split; congruence.
  - exact Hcall.
  - intros Hreach Hor.
    unfold run_result, run_state. rewrite (Hcall Hreach), Hor.
    split; reflexivity.
Qed.

Lemma maximum_all_reduce_is_logical_or_witness :
  reaches_consensus Samples.outta_time 7 false Samples.one_hour = true
  /\ logical_or
       ([false; true]
        ++ local_out_of_time Samples.outta_time Samples.one_hour 0
        :: [false]) = true
  /\ run_result
       (should_checkpoint 7 false Samples.one_hour 0
          (int_of_bool <$> ([false; true] ++ [false])))
       Samples.outta_time = Ok true
  /\ should_checkpoint 7 false Samples.one_hour 0
       (int_of_bool <$> ([false; false] ++ [false])) Samples.outta_time
     = (Ok false, Samples.outta_time, [AllReduceMaximum 0]).
Proof.
  split; [reflexivity |]. split; [reflexivity |]. split.
  - apply (maximum_all_reduce_is_logical_or [false; true] [false]
             Samples.outta_time 7 false Samples.one_hour 0);
      reflexivity.
  - exact (proj1 (proj2 (proj2 (proj2
             (maximum_all_reduce_is_logical_or [false; false] [false]
                Samples.outta_time 7 false Samples.one_hour 0))))
             eq_refl).
Defined.

(** C5 (as amended). [should_checkpoint] performs the collective reduction
    once when the evaluation reaches the consensus step, that is when
    checkpointing is enabled, neither the on-last nor the frequency trigger
    has answered, the out-of-time option is on and a wall-clock limit was
    detected, and does not perform it otherwise. Whether it is performed
    depends on the policy, the timestep, the last-timestep flag and the
    presence of a limit, not on the clock reading or on the peers. *)
Theorem should_checkpoint_collective_calls policy ts last budget now comm :
  run_trace (should_checkpoint ts last budget now comm) policy
  = if reaches_consensus policy ts last budget
    then [AllReduceMaximum (int_of_bool (local_out_of_time policy budget now))]
    else [].
Proof.
  unfold run_trace. rewrite should_checkpoint_eq.
  destruct (reaches_consensus policy ts last budget); [reflexivity |].
  destruct (divides_by_zero policy ts last); reflexivity.
Qed.

(** C5 (as stated) fails: with checkpointing disabled, and likewise when
    the frequency trigger has already answered, the call returns without
    performing the collective reduction. *)
Lemma should_checkpoint_skips_collective_counterexample :
  run_trace (should_checkpoint 3 false Samples.one_hour (seconds 3590) [1])
    chkptOp = []
  /\ run_trace (should_checkpoint 4 false Samples.one_hour (seconds 3590) [1])
       (Samples.every 4) = []
  /\ ~ (exists v,
         In (AllReduceMaximum v)
           (run_trace
              (should_checkpoint 3 false Samples.one_hour (seconds 3590) [1])
              chkptOp)).
Proof.
  split; [reflexivity |]. split; [reflexivity |].
  intros (v & Hin). exact Hin.
Qed.

(** C6 (as amended). When checkpointing is enabled and the on-last option
    is enabled, [should_checkpoint] returns true on a timestep flagged as the
    last, whatever the frequency and out-of-time settings. *)
Theorem should_checkpoint_on_last policy ts budget now comm :
  do_checkpoint policy = true ->
  on_last policy = Some true ->
  run_result (should_checkpoint ts true budget now comm) policy = Ok true.
Proof.
  intros Hdo Hlast. unfold run_result, should_checkpoint. run_unfold.
  rewrite Hdo, Hlast. reflexivity.
Qed.

Lemma should_checkpoint_on_last_witness :
  do_checkpoint Samples.last_and_zero_frequency = true
  /\ on_last Samples.last_and_zero_frequency = Some true
  /\ run_result (should_checkpoint 9 true Samples.one_hour 0 [])
       Samples.last_and_zero_frequency = Ok true.
Proof.
  split; [reflexivity |]. split; [reflexivity |].
  apply should_checkpoint_on_last; reflexivity.
Defined.

(** C6 (as stated) fails: with the on-last option enabled but checkpointing
    itself disabled, the call on the last timestep returns false. *)
Lemma should_checkpoint_on_last_disabled_counterexample :
  on_last Samples.on_last_but_disabled = Some true
  /\ run_result (should_checkpoint 9 true Samples.one_hour 0 [])
       Samples.on_last_but_disabled = Ok false.
Proof.
  split; reflexivity.
Qed.

End CheckpointPolicy.

(** ** Wall-clock detection *)

Section WallClock.

Import hpc_scheduler_info.

Variable duration_from_string : string -> option time_duration.

Implicit Types (env : gmap string string) (now : ptime)
  (budget : hpc_scheduler_info.t).

(** What [detect] does, by cases on the override variable alone. *)
Lemma detect_eq env now budget :
  detect duration_from_string env now budget =
  match getenv env "CHM_WALLCLOCK_LIMIT" with
  | Some text =>
      match duration_from_string text with
      | Some d =>
          (Ok tt,
           {| max_wallclock := d;
              wallclock_start := now;
              has_wallclock_limit := true |},
           [])
      | None =>
          (Raise (Thrown (chm_error invalid_wallclock_message)), budget, [])
      end
  | None => (Ok tt, budget, [])
  end.
Proof.
  unfold detect, try_catch_all, library_call, throw. run_unfold.
  destruct (getenv env "SLURM_JOB_ID"), (getenv env "PBS_JOBID"),
    (getenv env "CHM_WALLCLOCK_LIMIT") as [text |]; simpl;
    try reflexivity;
    destruct (duration_from_string text); reflexivity.
Qed.

(** C7 (as amended). Detection records a limit exactly when the explicit
    override [CHM_WALLCLOCK_LIMIT] is present and parses: the limit is the
    parsed duration, the start is the current time and
    [has_wallclock_limit] becomes true. Without the override nothing is
    recorded, whatever the batch scheduler put in the environment. *)
Theorem detect_records_override env now budget (text : string)
    (d : time_duration) :
  (getenv env "CHM_WALLCLOCK_LIMIT" = Some text ->
   duration_from_string text = Some d ->
   run_result (detect duration_from_string env now) budget = Ok tt
   /\ run_state (detect duration_from_string env now) budget
      = {| max_wallclock := d;
           wallclock_start := now;
           has_wallclock_limit := true |})
  /\ (getenv env "CHM_WALLCLOCK_LIMIT" = None ->
      run_result (detect duration_from_string env now) budget = Ok tt
      /\ run_state (detect duration_from_string env now) budget = budget).
Proof.
  unfold run_result, run_state. rewrite detect_eq. split.
  - intros -> ->. split; reflexivity.
  - intros ->. split; reflexivity.
Qed.

(** C8. A present but malformed override makes detection fail with the
    configuration error, and the budget is left exactly as it was: no limit
    is recorded. *)
Theorem detect_malformed_override env now budget (text : string) :
  getenv env "CHM_WALLCLOCK_LIMIT" = Some text ->
  duration_from_string text = None ->
  run_result (detect duration_from_string env now) budget
    = Raise (Thrown (chm_error invalid_wallclock_message))
  /\ run_state (detect duration_from_string env now) budget = budget.
Proof.
  intros Henv Hbad. unfold run_result, run_state.
  rewrite detect_eq, Henv, Hbad. split; reflexivity.
Qed.

End WallClock.

Lemma detect_records_override_witness :
  hpc_scheduler_info.getenv (Samples.override_environ "00:10:00")
    "CHM_WALLCLOCK_LIMIT" = Some "00:10:00"
  /\ Samples.clock_duration "00:10:00" = Some (seconds 600)
  /\ run_state
       (hpc_scheduler_info.detect Samples.clock_duration
          (Samples.override_environ "00:10:00") 77)
       hpc_scheduler_info.hpc_scheduler_info
     = {| hpc_scheduler_info.max_wallclock := seconds 600;
          hpc_scheduler_info.wallclock_start := 77;
          hpc_scheduler_info.has_wallclock_limit := true |}
  /\ hpc_scheduler_info.getenv Samples.scheduler_only_environ
       "CHM_WALLCLOCK_LIMIT" = None
  /\ run_state
       (hpc_scheduler_info.detect Samples.clock_duration
          Samples.scheduler_only_environ 77)
       hpc_scheduler_info.hpc_scheduler_info
     = hpc_scheduler_info.hpc_scheduler_info.
Proof.
  split; [reflexivity |]. split; [reflexivity |]. split.
  - apply (proj1 (detect_records_override Samples.clock_duration
                    (Samples.override_environ "00:10:00") 77
                    hpc_scheduler_info.hpc_scheduler_info
                    "00:10:00" (seconds 600))); reflexivity.
  - split; [reflexivity |].
    apply (proj2 (detect_records_override Samples.clock_duration
                    Samples.scheduler_only_environ 77
                    hpc_scheduler_info.hpc_scheduler_info
                    "" 0)); reflexivity.
Defined.

(** C7 (as stated) fails: under a batch scheduler that supplies the job
    and its time limit, but without the CHM override, detection records no
    limit. *)
Lemma detect_ignores_scheduler_counterexample :
  is_Some (hpc_scheduler_info.getenv Samples.scheduler_only_environ
             "SLURM_JOB_ID")
  /\ is_Some (hpc_scheduler_info.getenv Samples.scheduler_only_environ
                "PBS_JOBID")
  /\ hpc_scheduler_info.getenv Samples.scheduler_only_environ
       "SBATCH_TIMELIMIT" = Some "01:00:00"
  /\ hpc_scheduler_info.getenv Samples.scheduler_only_environ
       "PBS_WALLTIME" = Some "3600"
  /\ hpc_scheduler_info.has_wallclock_limit
       (run_state
          (hpc_scheduler_info.detect Samples.clock_duration
             Samples.scheduler_only_environ 77)
          hpc_scheduler_info.hpc_scheduler_info) = false.
Proof.
  repeat split; try (eexists; reflexivity); reflexivity.
Qed.

Lemma detect_malformed_override_witness :
  hpc_scheduler_info.getenv (Samples.override_environ "soon")
    "CHM_WALLCLOCK_LIMIT" = Some "soon"
  /\ Samples.clock_duration "soon" = None
  /\ run_result
       (hpc_scheduler_info.detect Samples.clock_duration
          (Samples.override_environ "soon") 77)
       hpc_scheduler_info.hpc_scheduler_info
     = Raise (Thrown (chm_error hpc_scheduler_info.invalid_wallclock_message))
  /\ hpc_scheduler_info.has_wallclock_limit
       (run_state
          (hpc_scheduler_info.detect Samples.clock_duration
             (Samples.override_environ "soon") 77)
          hpc_scheduler_info.hpc_scheduler_info) = false.
Proof.
  split; [reflexivity |]. split; [reflexivity |].
  destruct (detect_malformed_override Samples.clock_duration
              (Samples.override_environ "soon") 77
              hpc_scheduler_info.hpc_scheduler_info "soon"
              eq_refl eq_refl) as [Hres Hstate].
  split; [exact Hres |]. rewrite Hstate. reflexivity.
Defined.

(** * Further properties of the code *)

(** ** Checkpoint policy: what evaluations change and what they read *)

Section CheckpointFrame.

Import chkptOp Design Branches Notions.

Implicit Types (policy : chkptOp.t) (budget : hpc_scheduler_info.t)
  (comm : mpi.communicator) (now : ptime) (c : call) (cs : list call).

Lemma evaluate_state c policy :
  run_state (evaluate c) policy = policy
  \/ run_state (evaluate c) policy
     = set_checkpoint_request_terminate true policy.
Proof.
  unfold run_state, evaluate. rewrite should_checkpoint_eq. cbv zeta.
  destruct (reaches_consensus _ _ _ _); simpl.
  - destruct (bool_of_int _); auto.
  - destruct (divides_by_zero _ _ _); auto.
Qed.

Lemma evaluations_trace_cons policy c cs :
  run_trace (evaluations (c :: cs)) policy
  = match run_result (evaluate c) policy with
    | Ok _ =>
        run_trace (evaluate c) policy
        ++ run_trace (evaluations cs) (run_state (evaluate c) policy)
    | Raise _ => run_trace (evaluate c) policy
    end.
Proof.
  unfold run_state, run_result, run_trace. simpl. run_unfold.
  destruct (evaluate c policy) as [[[b | e] s1] tr1]; simpl; [| reflexivity].
  destruct (evaluations cs s1) as [[[bs | e] s2] tr2]; simpl;
    rewrite ?app_nil_r; reflexivity.
Qed.

(** X1. Evaluations never touch the settings: after any sequence of
    [should_checkpoint] calls the policy is what it was, except that the
    termination flag may have been raised. *)
Theorem evaluations_change_only_the_flag cs policy :
  run_state (evaluations cs) policy = policy
  \/ run_state (evaluations cs) policy
     = set_checkpoint_request_terminate true policy.
Proof.
  revert policy. induction cs as [| c cs IH]; intros policy.
  - left. reflexivity.
  - rewrite evaluations_state_cons.
    destruct (run_result (evaluate c) policy); [| apply evaluate_state].
    destruct (evaluate_state c policy) as [-> | ->]; [apply IH |].
    right. destruct (IH (set_checkpoint_request_terminate true policy))
      as [-> | ->]; reflexivity.
Qed.

(** X2. Termination is only ever requested together with a checkpoint: if
    an evaluation raises the flag, that evaluation performed the collective
    and answered yes, with checkpointing and the out-of-time option enabled
    and a wall-clock limit detected. *)
Theorem terminate_only_with_checkpoint policy c :
  checkpoint_request_terminate policy = false ->
  checkpoint_request_terminate (run_state (evaluate c) policy) = true ->
  out_of_time_fires c policy
  /\ do_checkpoint policy = true
  /\ on_outta_time policy = Some true
  /\ hpc_scheduler_info.has_wallclock_limit (scheduler_info c) = true.
Proof.
  intros Hclear. unfold out_of_time_fires, run_state, run_trace, run_result,
    evaluate.
  rewrite should_checkpoint_eq. cbv zeta.
  destruct (reaches_consensus _ _ _ _) eqn:Hreach; simpl.
  - destruct (bool_of_int _); simpl; [| congruence]. intros _.
    unfold reaches_consensus, reaches_frequency_test in Hreach.
    rewrite !andb_true_iff in Hreach.
    destruct Hreach as ((((Hdo & _) & _) & Hout) & Hlimit).
    repeat split; try assumption; try discriminate.
    destruct (on_outta_time policy) as [[] |]; (reflexivity || discriminate).
  - destruct (divides_by_zero _ _ _); simpl; congruence.
Qed.

Lemma terminate_only_with_checkpoint_witness :
  checkpoint_request_terminate Samples.outta_time = false
  /\ checkpoint_request_terminate
       (run_state (evaluate Samples.late_call) Samples.outta_time) = true
  /\ out_of_time_fires Samples.late_call Samples.outta_time.
Proof.
  split; [reflexivity |]. split; [reflexivity |].
  exact (proj1 (terminate_only_with_checkpoint Samples.outta_time
                  Samples.late_call eq_refl eq_refl)).
Defined.

(** X3. A policy with checkpointing disabled answers no to every evaluation
    of a run, performs no collective and is left unchanged, whatever its
    other settings, the budget and the peers. *)
Theorem disabled_never_checkpoints cs policy :
  do_checkpoint policy = false ->
  evaluations cs policy = (Ok (replicate (length cs) false), policy, []).
Proof.
  intros Hoff.
  assert (forall c, evaluate c policy = (Ok false, policy, [])) as Hone.
  { intros c. unfold evaluate, should_checkpoint. run_unfold.
    rewrite Hoff. reflexivity. }
  induction cs as [| c cs IH]; [reflexivity |].
  simpl. run_unfold. rewrite Hone, IH. reflexivity.
Qed.

Lemma disabled_never_checkpoints_witness :
  do_checkpoint Samples.on_last_but_disabled = false
  /\ evaluations (Samples.late_call :: Samples.later_calls)
       Samples.on_last_but_disabled
     = (Ok [false; false; false], Samples.on_last_but_disabled, []).
Proof.
  split; [reflexivity |].
  exact (disabled_never_checkpoints (Samples.late_call :: Samples.later_calls)
           Samples.on_last_but_disabled eq_refl).
Defined.

(** X4. The decision never reads the termination flag: a policy answers,
    and communicates, the same whether or not termination has already been
    requested. *)
Theorem decision_ignores_terminate_flag policy (b : bool) c :
  run_result (evaluate c) (set_checkpoint_request_terminate b policy)
  = run_result (evaluate c) policy
  /\ run_trace (evaluate c) (set_checkpoint_request_terminate b policy)
     = run_trace (evaluate c) policy.
Proof.
  unfold run_result, run_trace, evaluate. rewrite !should_checkpoint_eq.
  cbv zeta.
  change (reaches_consensus (set_checkpoint_request_terminate b policy))
    with (reaches_consensus policy).
  change (divides_by_zero (set_checkpoint_request_terminate b policy))
    with (divides_by_zero policy).
  change (local_out_of_time (set_checkpoint_request_terminate b policy))
    with (local_out_of_time policy).
  change (decision_rule (set_checkpoint_request_terminate b policy))
    with (decision_rule policy).
  destruct (reaches_consensus _ _ _ _); simpl; [split; reflexivity |].
  destruct (divides_by_zero _ _ _); split; reflexivity.
Qed.

Lemma all_reduce_maximum_lower_bound comm (v : Z) :
  v <= mpi.all_reduce comm v mpi.maximum.
Proof.
  unfold mpi.all_reduce, mpi.maximum.
  induction comm as [| x comm IH]; simpl; lia.
Qed.

(** X5. One process is enough: if the evaluation reaches the consensus and
    this process is locally out of time, the call answers yes and raises the
    flag whatever values the other ranks contribute. *)
Theorem local_out_of_time_forces_checkpoint policy ts last budget now comm :
  reaches_consensus policy ts last budget = true ->
  local_out_of_time policy budget now = true ->
  run_result (should_checkpoint ts last budget now comm) policy = Ok true
  /\ checkpoint_request_terminate
       (run_state (should_checkpoint ts last budget now comm) policy) = true.
Proof.
  intros Hreach Hlocal. unfold run_result, run_state.
  rewrite should_checkpoint_eq, Hreach, Hlocal. cbv zeta.
  assert (bool_of_int (mpi.all_reduce comm (int_of_bool true) mpi.maximum)
          = true) as ->.
  { pose proof (all_reduce_maximum_lower_bound comm (int_of_bool true)) as H.
    unfold bool_of_int. simpl in H.
    destruct (Z.eqb_spec (mpi.all_reduce comm (int_of_bool true) mpi.maximum) 0)
      as [E | E]; [simpl in E; lia | reflexivity]. }
  split; reflexivity.
Qed.

Lemma local_out_of_time_forces_checkpoint_witness :
  reaches_consensus Samples.outta_time 7 false Samples.one_hour = true
  /\ local_out_of_time Samples.outta_time Samples.one_hour (seconds 3540)
     = true
  /\ run_result
       (should_checkpoint 7 false Samples.one_hour (seconds 3540) [0; -3; 0])
       Samples.outta_time = Ok true.
Proof.
  split; [reflexivity |]. split; [reflexivity |].
  exact (proj1 (local_out_of_time_forces_checkpoint Samples.outta_time 7 false
                  Samples.one_hour (seconds 3540) [0; -3; 0]
                  eq_refl eq_refl)).
Defined.

End CheckpointFrame.

(** ** Checkpoint policy across the ranks of a distributed run *)

Section CheckpointRanks.

Import chkptOp Design Branches Notions.

Lemma reaches_consensus_settings (p1 p2 : chkptOp.t) ts last
    (b1 b2 : hpc_scheduler_info.t) :
  same_settings p1 p2 ->
  hpc_scheduler_info.has_wallclock_limit b1
  = hpc_scheduler_info.has_wallclock_limit b2 ->
  reaches_consensus p1 ts last b1 = reaches_consensus p2 ts last b2.
Proof.
  intros (Hdo & Hlast & Hfreq & Hout) Hlimit.
  unfold reaches_consensus, reaches_frequency_test.
  rewrite Hdo, Hlast, Hfreq, Hout, Hlimit. reflexivity.
Qed.

Lemma no_collective_iff (policy : chkptOp.t) ts last
    (budget : hpc_scheduler_info.t) (now : ptime) (comm : mpi.communicator) :
  run_trace (should_checkpoint ts last budget now comm) policy = []
  <-> reaches_consensus policy ts last budget = false.
Proof.
  unfold run_trace. rewrite should_checkpoint_eq. cbv zeta.
  destruct (reaches_consensus policy ts last budget); simpl.
  - split; discriminate.
  - destruct (divides_by_zero policy ts last); split; reflexivity.
Qed.

(** X6. Ranks that share the trigger settings, the timestep, the
    last-timestep flag and the outcome of limit detection enter the
    collective together: either each of them performs the all-reduce in
    this evaluation or none does, whatever their clocks, margins and
    termination flags. *)
Theorem ranks_enter_collective_together (p1 p2 : chkptOp.t) ts last
    (b1 b2 : hpc_scheduler_info.t) (now1 now2 : ptime)
    (comm1 comm2 : mpi.communicator) :
  same_settings p1 p2 ->
  hpc_scheduler_info.has_wallclock_limit b1
  = hpc_scheduler_info.has_wallclock_limit b2 ->
  run_trace (should_checkpoint ts last b1 now1 comm1) p1 = []
  <-> run_trace (should_checkpoint ts last b2 now2 comm2) p2 = [].
Proof.
  intros Hsame Hlimit. rewrite !no_collective_iff.
  rewrite (reaches_consensus_settings p1 p2 ts last b1 b2 Hsame Hlimit).
  reflexivity.
Qed.

Lemma ranks_enter_collective_together_witness :
  same_settings Samples.outta_time
    (set_checkpoint_request_terminate true Samples.outta_time)
  /\ (run_trace
        (should_checkpoint 7 false Samples.one_hour (seconds 3540) [0])
        Samples.outta_time = []
      <-> run_trace
            (should_checkpoint 7 false Samples.one_hour (seconds 10) [1])
            (set_checkpoint_request_terminate true Samples.outta_time) = []).
Proof.
  assert (same_settings Samples.outta_time
            (set_checkpoint_request_terminate true Samples.outta_time)) as H
    by (repeat split; reflexivity).
  split; [exact H |].
  exact (ranks_enter_collective_together _ _ 7 false Samples.one_hour
           Samples.one_hour (seconds 3540) (seconds 10) [0] [1] H eq_refl).
Defined.

(** X7. Agreement: two ranks of the same collective, each seeing the local
    out-of-time results of the others, return the same answer when both
    reach the consensus, namely the logical OR of all local results. *)
Theorem consensus_agreement (v1 v2 : rank_view) :
  view_locals v1 = view_locals v2 ->
  view_reaches_consensus v1 = true ->
  view_reaches_consensus v2 = true ->
  (view_run v1).1.1 = Ok (logical_or (view_locals v1))
  /\ (view_run v2).1.1 = (view_run v1).1.1.
Proof.
  assert (forall v, view_reaches_consensus v = true ->
            (view_run v).1.1 = Ok (logical_or (view_locals v))) as Hview.
  { intros v Hreach. unfold view_run, view_locals.
    unfold view_reaches_consensus in Hreach.
    rewrite should_checkpoint_eq, Hreach. cbv zeta. simpl.
    rewrite all_reduce_maximum_or, bool_of_int_of_bool, logical_or_rank.
    reflexivity. }
  intros Hsame H1 H2. rewrite (Hview v1 H1), (Hview v2 H2), Hsame.
  split; reflexivity.
Qed.

Lemma consensus_agreement_witness :
  view_locals MoreSamples.rank0 = view_locals MoreSamples.rank2
  /\ view_reaches_consensus MoreSamples.rank0 = true
  /\ view_reaches_consensus MoreSamples.rank2 = true
  /\ (view_run MoreSamples.rank2).1.1 = (view_run MoreSamples.rank0).1.1.
Proof.
  split; [reflexivity |]. split; [reflexivity |]. split; [reflexivity |].
  exact (proj2 (consensus_agreement MoreSamples.rank0 MoreSamples.rank2
                  eq_refl eq_refl eq_refl)).
Defined.

End CheckpointRanks.

(** ** The wall-clock budget through a run *)

Section BudgetThroughRun.

Import hpc_scheduler_info chkptOp Design Branches Notions.

Variable duration_from_string : string -> option time_duration.

Implicit Types (env : gmap string string) (now later : ptime)
  (budget : hpc_scheduler_info.t) (policy : chkptOp.t).

(** X8. The remaining time falls tick for tick with the clock, so the local
    out-of-time check is permanent: once true it is true at every later
    clock reading (for an unchanged budget and margin). *)
Theorem out_of_time_is_permanent policy budget now later :
  now <= later ->
  wallclock_remaining budget later
  = wallclock_remaining budget now - (later - now)
  /\ (local_out_of_time policy budget now = true ->
      local_out_of_time policy budget later = true).
Proof.
  intros Hlater. unfold local_out_of_time, wallclock_remaining.
  split; [lia |].
  rewrite !bool_decide_eq_true. lia.
Qed.

Lemma out_of_time_is_permanent_witness :
  seconds 3540 <= seconds 3599
  /\ local_out_of_time Samples.outta_time Samples.one_hour (seconds 3540)
     = true
  /\ local_out_of_time Samples.outta_time Samples.one_hour (seconds 3599)
     = true.
Proof.
  assert (seconds 3540 <= seconds 3599) as Hle by (vm_compute; discriminate).
  split; [exact Hle |]. split; [reflexivity |].
  exact (proj2 (out_of_time_is_permanent Samples.outta_time Samples.one_hour
                  (seconds 3540) (seconds 3599) Hle) eq_refl).
Defined.

(** X9. Detection and the budget compose: after a successful [detect] at
    time [now] with an override that parses to [d], the remaining time at a
    later reading is [d] less the time elapsed, and the local out-of-time
    check of a policy is true exactly from [now + d - margin] on. *)
Theorem detect_then_remaining env now later budget policy (text : string)
    (d : time_duration) :
  getenv env "CHM_WALLCLOCK_LIMIT" = Some text ->
  duration_from_string text = Some d ->
  let detected := run_state (detect duration_from_string env now) budget in
  has_wallclock_limit detected = true
  /\ wallclock_remaining detected later = d - (later - now)
  /\ (local_out_of_time policy detected later = true
      <-> now + d - abort_when_wallclock_left policy <= later).
Proof.
  intros Henv Hparse detected. unfold detected, run_state.
  rewrite detect_eq, Henv, Hparse. simpl.
  unfold local_out_of_time, wallclock_remaining. simpl.
  split; [reflexivity |]. split; [reflexivity |].
  rewrite bool_decide_eq_true. lia.
Qed.

(** X10. [detect] looks at nothing but the override: two environments that
    agree on [CHM_WALLCLOCK_LIMIT] give the same outcome and the same
    budget, whatever scheduler variables they hold. *)
Theorem detect_depends_on_override_only env1 env2 now budget :
  getenv env1 "CHM_WALLCLOCK_LIMIT" = getenv env2 "CHM_WALLCLOCK_LIMIT" ->
  detect duration_from_string env1 now budget
  = detect duration_from_string env2 now budget.
Proof.
  intros Hsame. rewrite !detect_eq, Hsame. reflexivity.
Qed.

Lemma evaluate_without_limit c policy :
  has_wallclock_limit (scheduler_info c) = false ->
  run_state (evaluate c) policy = policy
  /\ run_trace (evaluate c) policy = [].
Proof.
  intros Hno. unfold run_state, run_trace, evaluate.
  rewrite should_checkpoint_eq.
  assert (reaches_consensus policy (current_ts c) (is_last_ts c)
            (scheduler_info c) = false) as ->.
  { unfold reaches_consensus. rewrite Hno. apply andb_false_r. }
  destruct (divides_by_zero _ _ _); split; reflexivity.
Qed.

(** X11. Without the override a run never stops early: when every
    evaluation consults the budget that [detect] leaves in a
    default-constructed [hpc_scheduler_info] under an environment without
    [CHM_WALLCLOCK_LIMIT], no evaluation performs the collective and the
    policy, its termination flag included, is never changed, even with the
    out-of-time option on. *)
Theorem no_override_never_terminates env now policy (cs : list call) :
  getenv env "CHM_WALLCLOCK_LIMIT" = None ->
  all_consult
    (run_state (detect duration_from_string env now)
       hpc_scheduler_info.hpc_scheduler_info) cs ->
  run_state (evaluations cs) policy = policy
  /\ run_trace (evaluations cs) policy = [].
Proof.
  intros Henv. unfold run_state at 1. rewrite detect_eq, Henv. simpl.
  unfold all_consult. intros Hall.
  induction Hall as [| c cs Hc Hall IH]; [split; reflexivity |].
  assert (has_wallclock_limit (scheduler_info c) = false) as Hno
    by (rewrite Hc; reflexivity).
  destruct (evaluate_without_limit c policy Hno) as [Hstate Htrace].
  rewrite evaluations_state_cons, evaluations_trace_cons, Hstate, Htrace.
  destruct (run_result (evaluate c) policy); [| split; reflexivity].
  destruct IH as [IHs IHt]. rewrite IHs, IHt. split; reflexivity.
Qed.

End BudgetThroughRun.

Lemma detect_then_remaining_witness :
  hpc_scheduler_info.getenv (Samples.override_environ "00:10:00")
    "CHM_WALLCLOCK_LIMIT" = Some "00:10:00"
  /\ Samples.clock_duration "00:10:00" = Some (seconds 600)
  /\ hpc_scheduler_info.wallclock_remaining
       (run_state
          (hpc_scheduler_info.detect Samples.clock_duration
             (Samples.override_environ "00:10:00") (seconds 5))
          hpc_scheduler_info.hpc_scheduler_info) (seconds 65)
     = seconds 600 - (seconds 65 - seconds 5).
Proof.
  split; [reflexivity |]. split; [reflexivity |].
  exact (proj1 (proj2 (detect_then_remaining Samples.clock_duration
                         (Samples.override_environ "00:10:00") (seconds 5)
                         (seconds 65) hpc_scheduler_info.hpc_scheduler_info
                         Samples.outta_time "00:10:00" (seconds 600)
                         eq_refl eq_refl))).
Defined.

Lemma detect_depends_on_override_only_witness :
  hpc_scheduler_info.getenv Samples.scheduler_only_environ
    "CHM_WALLCLOCK_LIMIT"
  = hpc_scheduler_info.getenv ∅ "CHM_WALLCLOCK_LIMIT"
  /\ hpc_scheduler_info.detect Samples.clock_duration
       Samples.scheduler_only_environ 77 Samples.one_hour
     = hpc_scheduler_info.detect Samples.clock_duration ∅ 77
         Samples.one_hour.
Proof.
  split; [reflexivity |].
  exact (detect_depends_on_override_only Samples.clock_duration
           Samples.scheduler_only_environ ∅ 77 Samples.one_hour eq_refl).
Defined.

Lemma no_override_never_terminates_witness :
  hpc_scheduler_info.getenv Samples.scheduler_only_environ
    "CHM_WALLCLOCK_LIMIT" = None
  /\ Notions.all_consult
       (run_state
          (hpc_scheduler_info.detect Samples.clock_duration
             Samples.scheduler_only_environ 77)
          hpc_scheduler_info.hpc_scheduler_info)
       MoreSamples.unlimited_calls
  /\ run_state (chkptOp.evaluations MoreSamples.unlimited_calls)
       Samples.outta_time = Samples.outta_time.
Proof.
  assert (Notions.all_consult
            (run_state
               (hpc_scheduler_info.detect Samples.clock_duration
                  Samples.scheduler_only_environ 77)
               hpc_scheduler_info.hpc_scheduler_info)
            MoreSamples.unlimited_calls) as Hall
    by (repeat constructor).
  split; [reflexivity |]. split; [exact Hall |].
  exact (proj1 (no_override_never_terminates Samples.clock_duration
                  Samples.scheduler_only_environ 77 Samples.outta_time
                  MoreSamples.unlimited_calls eq_refl Hall)).
Defined.

(** ** Output triggers at the edges *)

Section OutputEdges.

Import output_info Design Branches Notions.

Implicit Types (d : output_info.t) (max_ts current_ts : Z) (date : ptime).

Lemma should_output_nonzero d max_ts current_ts date :
  frequency d <> Some 0 ->
  run_result (should_output max_ts current_ts date) d
  = Ok (only_last_n_test d max_ts current_ts
        || frequency_test d current_ts
        || specific_time_test d date
        || specific_datetime_test d date).
Proof.
  intros Hnz. unfold run_result. rewrite should_output_eq.
  rewrite bool_decide_eq_false_2 by exact Hnz. reflexivity.
Qed.

(** X12. The "last n" window in plain integers: for [size_t] arguments a
    descriptor with only [only_last_n = n] fires up to the last timestep when
    [max_ts - current_ts <= n]; past the last timestep the unsigned
    difference wraps, and it fires only if [n] reaches
    [2^64 - (current_ts - max_ts)]. *)
Theorem only_last_n_window d (n : Z) max_ts current_ts date :
  only_last n d ->
  is_size_t max_ts ->
  is_size_t current_ts ->
  run_result (should_output max_ts current_ts date) d = Ok true
  <-> (current_ts <= max_ts /\ max_ts - current_ts <= n)
      \/ (max_ts < current_ts
          /\ size_t_modulus - (current_ts - max_ts) <= n).
Proof.
  intros (Hn & Hf & Ht & Hd) Hmax Hcur.
  rewrite should_output_nonzero by (rewrite Hf; discriminate).
  unfold only_last_n_test, frequency_test, specific_time_test,
    specific_datetime_test.
  rewrite Hn, Hf, Ht, Hd. simpl. rewrite !orb_false_r.
  destruct (Z_lt_le_dec max_ts current_ts) as [Hgt | Hle].
  - rewrite size_sub_wraps by assumption.
    destruct (Z.leb_spec (max_ts - current_ts + size_t_modulus) n);
      split; try discriminate; try reflexivity; lia.
  - rewrite size_sub_exact by assumption.
    destruct (Z.leb_spec (max_ts - current_ts) n);
      split; try discriminate; try reflexivity; lia.
Qed.

Lemma only_last_n_window_witness :
  only_last 5 (Samples.output_last 5)
  /\ is_size_t 100
  /\ is_size_t 101
  /\ run_result (should_output 100 101 0) (Samples.output_last 5) <> Ok true.
Proof.
  assert (only_last 5 (Samples.output_last 5)) as Hlast
    by (repeat split; reflexivity).
  assert (is_size_t 100) as H100 by (split; [lia | reflexivity]).
  assert (is_size_t 101) as H101 by (split; [lia | reflexivity]).
  split; [exact Hlast |]. split; [exact H100 |]. split; [exact H101 |].
  intros Hfires.
  apply (only_last_n_window (Samples.output_last 5) 5 100 101 0
           Hlast H100 H101) in Hfires.
  rewrite size_t_modulus_value in Hfires. lia.
Defined.

(** X13. Once inside the "last n" window a descriptor stays inside it up to
    the last timestep: if [max_ts - current_ts <= n] then [should_output]
    answers true at every timestep from [current_ts] to [max_ts], whatever
    its other triggers (the frequency being unset or nonzero). *)
Theorem last_n_window_runs_to_the_end d (n : Z) max_ts current_ts
    (later_ts : Z) date :
  only_last_n d = Some n ->
  frequency d <> Some 0 ->
  is_size_t max_ts ->
  0 <= current_ts <= later_ts ->
  later_ts <= max_ts ->
  max_ts - current_ts <= n ->
  run_result (should_output max_ts later_ts date) d = Ok true.
Proof.
  intros Hn Hnz Hmax Hcur Hlater Hwin.
  rewrite should_output_nonzero by exact Hnz.
  unfold only_last_n_test. rewrite Hn.
  rewrite size_sub_exact by (unfold is_size_t in *; lia || assumption).
  destruct (Z.leb_spec (max_ts - later_ts) n); [reflexivity | lia].
Qed.

Lemma last_n_window_runs_to_the_end_witness :
  only_last_n (Samples.output_last 5) = Some 5
  /\ frequency (Samples.output_last 5) <> Some 0
  /\ is_size_t 100
  /\ run_result (should_output 100 99 0) (Samples.output_last 5) = Ok true.
Proof.
  assert (is_size_t 100) as H100 by (split; [lia | reflexivity]).
  split; [reflexivity |]. split; [discriminate |]. split; [exact H100 |].
  apply (last_n_window_runs_to_the_end (Samples.output_last 5) 5 100 96 99 0);
    [reflexivity | discriminate | exact H100 | lia | lia | lia].
Defined.

(** X14. The output frequency is periodic and, unlike the checkpoint
    frequency, includes timestep 0: with a nonzero frequency [f],
    [should_output] answers true at every multiple [k * f], whatever the
    other triggers, and the frequency test at [current_ts + k * f] is the
    one at [current_ts]. *)
Theorem output_frequency_periodic d (f k : Z) max_ts current_ts date :
  frequency d = Some f ->
  f <> 0 ->
  run_result (should_output max_ts (k * f) date) d = Ok true
  /\ run_result (should_output max_ts 0 date) d = Ok true
  /\ frequency_test d (current_ts + k * f) = frequency_test d current_ts.
Proof.
  intros Hf Hnz.
  assert (frequency d <> Some 0) as Hnz' by (rewrite Hf; congruence).
  rewrite !should_output_nonzero by exact Hnz'.
  unfold frequency_test. rewrite Hf.
  rewrite Z.mod_mul by exact Hnz. rewrite Z.mod_add by exact Hnz.
  rewrite Z.mod_0_l by exact Hnz. simpl.
  rewrite !orb_true_r. simpl. repeat split; reflexivity.
Qed.

Lemma output_frequency_periodic_witness :
  frequency (Samples.output_every 10) = Some 10
  /\ 10 <> 0
  /\ run_result (should_output 100 (7 * 10) 0) (Samples.output_every 10)
     = Ok true.
Proof.
  split; [reflexivity |]. split; [discriminate |].
  apply (output_frequency_periodic (Samples.output_every 10) 10 7 100 3 0);
    [reflexivity | discriminate].
Defined.

Lemma same_minute_of_day (a b : Z) :
  (a / ticks_per_hour =? b / ticks_per_hour)
  && ((a / ticks_per_minute) mod 60 =? (b / ticks_per_minute) mod 60)
  = (a / ticks_per_minute =? b / ticks_per_minute).
Proof.
  assert (forall t, t / ticks_per_hour = t / ticks_per_minute / 60) as Hdiv.
  { intros t. unfold ticks_per_hour.
    rewrite (Z.mul_comm 60), Z.div_div by (vm_compute; congruence || lia).
    reflexivity. }
  rewrite !Hdiv.
  pose proof (Z.div_mod (a / ticks_per_minute) 60 ltac:(lia)) as Ha.
  pose proof (Z.div_mod (b / ticks_per_minute) 60 ltac:(lia)) as Hb.
  destruct (Z.eqb_spec (a / ticks_per_minute) (b / ticks_per_minute))
    as [-> | Hne].
  - rewrite !Z.eqb_refl. reflexivity.
  - destruct (Z.eqb_spec (a / ticks_per_minute / 60)
                (b / ticks_per_minute / 60)) as [Hq | Hq]; [| reflexivity].
    destruct (Z.eqb_spec ((a / ticks_per_minute) mod 60)
                ((b / ticks_per_minute) mod 60)) as [Hr | Hr];
      [| reflexivity].
    exfalso. apply Hne. rewrite Ha, Hb, Hq, Hr. reflexivity.
Qed.

(** X15. The time-of-day trigger compares minutes of the day and nothing
    else: a descriptor with only [specific_time] fires exactly when the
    current date falls in the same minute of the day as the configured
    time, so seconds and the calendar date are ignored and the answer
    repeats every 24 hours. *)
Theorem specific_time_is_minute_of_day d (st : ptime) max_ts current_ts date
    (days : Z) :
  only_at_time st d ->
  (run_result (should_output max_ts current_ts date) d = Ok true
   <-> minute_of_day date = minute_of_day st)
  /\ run_result
       (should_output max_ts current_ts (date + days * ticks_per_day)) d
     = run_result (should_output max_ts current_ts date) d.
Proof.
  intros (Hn & Hf & Ht & Hd).
  rewrite !should_output_nonzero by (rewrite Hf; discriminate).
  unfold only_last_n_test, frequency_test, specific_time_test,
    specific_datetime_test.
  rewrite Hn, Hf, Ht, Hd. simpl. rewrite !orb_false_r.
  unfold td_hours, td_minutes. rewrite !same_minute_of_day.
  split.
  - unfold minute_of_day.
    destruct (Z.eqb_spec (time_of_day date / ticks_per_minute)
                (time_of_day st / ticks_per_minute));
      split; congruence.
  - unfold time_of_day. rewrite Z.mod_add by discriminate. reflexivity.
Qed.

Lemma specific_time_is_minute_of_day_witness :
  only_at_time (6 * ticks_per_hour + minutes 30) MoreSamples.output_at_0630
  /\ run_result
       (should_output 100 3
          (40 * ticks_per_day + 6 * ticks_per_hour + minutes 30 + seconds 59))
       MoreSamples.output_at_0630 = Ok true.
Proof.
  assert (only_at_time (6 * ticks_per_hour + minutes 30)
            MoreSamples.output_at_0630) as Honly
    by (repeat split; reflexivity).
  split; [exact Honly |].
  apply (proj1 (specific_time_is_minute_of_day MoreSamples.output_at_0630
                  _ 100 3 _ 0 Honly)).
  reflexivity.
Defined.

(** X16. The tests are not short-circuited and the constructor's window
    survives configuration: a descriptor that keeps [only_last_n = SIZE_MAX]
    answers true at every timestep whatever frequency or times are set on
    it, unless the frequency is zero, in which case the call faults even
    though the first test has already succeeded. *)
Theorem size_max_window_dominates d max_ts current_ts date :
  only_last_n d = Some SIZE_MAX ->
  run_result (should_output max_ts current_ts date) d
  = if bool_decide (frequency d = Some 0) then Raise DivideByZero
    else Ok true.
Proof.
  intros Hn. unfold run_result. rewrite should_output_eq. simpl.
  case_bool_decide; [reflexivity |].
  unfold only_last_n_test. rewrite Hn.
  destruct (Z.leb_spec (size_sub max_ts current_ts) SIZE_MAX) as [_ | Hlt];
    [reflexivity |].
  pose proof (size_sub_bounds max_ts current_ts). lia.
Qed.

Lemma size_max_window_dominates_witness :
  only_last_n (MoreSamples.default_with_frequency 10) = Some SIZE_MAX
  /\ run_result (should_output 100 3 0) (MoreSamples.default_with_frequency 10)
     = Ok true
  /\ run_result (should_output 100 3 0) (MoreSamples.default_with_frequency 0)
     = Raise DivideByZero.
Proof.
  split; [reflexivity |]. split.
  - exact (size_max_window_dominates (MoreSamples.default_with_frequency 10)
             100 3 0 eq_refl).
  - exact (size_max_window_dominates (MoreSamples.default_with_frequency 0)
             100 3 0 eq_refl).
Defined.

End OutputEdges.

(** ** The debug listing of a descriptor *)

Section Listing.

Import output_info Design Branches listing.

Variable to_simple_string : ptime -> string.

(** X17. The listing is complete for the triggers: [list_outputs] logs one
    line per configured trigger after its heading, so when it logs the
    heading alone no trigger is configured and [should_output] answers
    false for every timestep and date, leaving the descriptor as it was. *)
Theorem silent_listing_never_outputs (d : output_info.t) max_ts current_ts
    (date : ptime) :
  length (list_outputs to_simple_string d) = 1%nat ->
  no_trigger d
  /\ should_output max_ts current_ts date d = (Ok false, d, []).
Proof.
  intros Hlen.
  assert (no_trigger d) as Hnone.
  { revert Hlen. unfold list_outputs, no_trigger.
    destruct (only_last_n d), (frequency d), (specific_time d),
      (specific_datetime d); simpl; intros Hlen;
      first [discriminate Hlen | repeat split; reflexivity]. }
  split; [exact Hnone |].
  destruct Hnone as (Hn & Hf & Ht & Hd).
  rewrite should_output_eq.
  unfold only_last_n_test, frequency_test, specific_time_test,
    specific_datetime_test.
  rewrite Hn, Hf, Ht, Hd. reflexivity.
Qed.

End Listing.

Lemma silent_listing_never_outputs_witness :
  length (listing.list_outputs MoreSamples.ticks_string
            MoreSamples.output_never) = 1%nat
  /\ output_info.should_output 100 3 0 MoreSamples.output_never
     = (Ok false, MoreSamples.output_never, []).
Proof.
  split; [reflexivity |].
  exact (proj2 (silent_listing_never_outputs MoreSamples.ticks_string
                  MoreSamples.output_never 100 3 0 eq_refl)).
Defined.

(** ** Edge attributes written for Graphviz *)

Section EdgeWriter.

Import graphviz.

Lemma append_cons (ch : Ascii.ascii) (a b : string) :
  String ch a +:+ b = String ch (a +:+ b).
Proof. reflexivity. Qed.

Lemma append_assoc (a b c : string) : (a +:+ b) +:+ c = a +:+ (b +:+ c).
Proof.
  induction a as [| ch a IH]; [reflexivity |].
  rewrite !append_cons, IH. reflexivity.
Qed.

Lemma length_append (a b : string) :
  String.length (a +:+ b) = (String.length a + String.length b)%nat.
Proof.
  induction a as [| ch a IH]; [reflexivity |].
  rewrite append_cons. simpl. rewrite IH. reflexivity.
Qed.

Lemma append_inj_length (a b x y : string) :
  String.length a = String.length b ->
  a +:+ x = b +:+ y ->
  a = b /\ x = y.
Proof.
  revert b. induction a as [| ch a IH]; intros [| ch' b] Hlen Heq;
    try discriminate Hlen.
  - split; [reflexivity | exact Heq].
  - rewrite !append_cons in Heq. injection Heq as -> Heq.
    injection Hlen as Hlen.
    destruct (IH b Hlen Heq) as [-> ->]. split; reflexivity.
Qed.

Lemma edge_writer_unfold {Edge : Type} (vm : Edge -> string) (out : string)
    (e : Edge) :
  edge_writer vm out e
  = out +:+ ("[label=" +:+ double_quote)
        +:+ (vm e +:+ ((double_quote +:+ ", edgetype=") +:+ (vm e +:+ "]"))).
Proof.
  unfold edge_writer, put. rewrite !append_assoc. reflexivity.
Qed.

(** X18. [edge_writer] only appends to the stream, and the text it appends
    identifies the edge's variable: on the same stream, two edges get the
    same attribute text only if their variable names are equal. *)
Theorem edge_writer_appends_distinct_text {Edge : Type} (vm : Edge -> string)
    (out : string) (e1 e2 : Edge) :
  (exists text, edge_writer vm out e1 = out +:+ text)
  /\ (edge_writer vm out e1 = edge_writer vm out e2 -> vm e1 = vm e2).
Proof.
  rewrite !edge_writer_unfold. split; [eexists; reflexivity |].
  intros Heq.
  apply (append_inj_length out out) in Heq as [_ Heq]; [| reflexivity].
  apply (append_inj_length _ _) in Heq as [_ Heq]; [| reflexivity].
  assert (String.length (vm e1) = String.length (vm e2)) as Hlen.
  { apply (f_equal String.length) in Heq.
    rewrite !length_append in Heq. simpl in Heq. lia. }
  apply (append_inj_length _ _ _ _ Hlen) in Heq as [Hv _]. exact Hv.
Qed.

Lemma edge_writer_appends_distinct_text_witness :
  edge_writer variable "digraph" (mk_edge "t") <>
  edge_writer variable "digraph" (mk_edge "rh").
Proof.
  intros Heq.
  apply (proj2 (edge_writer_appends_distinct_text variable "digraph"
                  (mk_edge "t") (mk_edge "rh"))) in Heq.
  discriminate Heq.
Defined.

End EdgeWriter.
